(** * order_helper: allocation engine

    Shallow embedding of [domain/models.py], [domain/events.py],
    [planner/algorithms.py], [planner/planner_agent.py] and
    [planner/worker_agent.py].

    Conventions of the embedding:
    - a [date] is its day number ([Z]); a [datetime] is a day number and a
      time of day, compared lexicographically as Python does;
      [datetime.date()] is the day number, a [timedelta] of whole days a [Z];
    - hours (Python [float]) are exact rationals [Q];
    - a Python [dict] is an association list in insertion order;
    - a Python exception is the [Err] branch of [Result]. *)

From Stdlib Require Import ZArith QArith Qminmax Lqa List Bool String Permutation Sorted Lia.
Import ListNotations.
Open Scope string_scope.
Open Scope list_scope.
Open Scope Z_scope.

(* ------------------------------------------------------------------ *)
(** ** Python runtime fragments *)

Inductive PyExc : Type :=
| ValueError | IndexError | AttributeError | TypeError | KeyError.

Inductive Result (A : Type) : Type :=
| Ok : A -> Result A
| Err : PyExc -> Result A.
Arguments Ok {A} _.
Arguments Err {A} _.

Definition rbind {A B} (m : Result A) (f : A -> Result B) : Result B :=
  match m with Ok a => f a | Err e => Err e end.

Notation "'let*' x ':=' m 'in' f" := (rbind m (fun x => f))
  (at level 200, x name, m at level 100, f at level 200).

(** [lst[i]]: [IndexError] out of range. *)
Definition py_index {A} (l : list A) (i : nat) : Result A :=
  match nth_error l i with Some a => Ok a | None => Err IndexError end.

(** Python's [min(a, b)]: [b] only when [b < a]. *)
Definition py_min (a b : Q) : Q := if Qle_bool a b then a else b.

(** A [dict] as an association list; [d[k] = v] keeps the position of an
    existing key and appends a new one. *)
Fixpoint dict_get {K V} (eqk : K -> K -> bool) (d : list (K * V)) (k : K)
  : option V :=
  match d with
  | [] => None
  | (k', v) :: d' => if eqk k' k then Some v else dict_get eqk d' k
  end.

Fixpoint dict_set {K V} (eqk : K -> K -> bool) (d : list (K * V)) (k : K) (v : V)
  : list (K * V) :=
  match d with
  | [] => [(k, v)]
  | (k', v') :: d' =>
      if eqk k' k then (k', v) :: d' else (k', v') :: dict_set eqk d' k v
  end.

(** [sorted(l, key=...)]: a stable insertion sort; [before y x] says that
    [y] may stay in front of [x]. *)
Fixpoint insert_by {A} (before : A -> A -> bool) (x : A) (l : list A) : list A :=
  match l with
  | [] => [x]
  | y :: l' => if before y x then y :: insert_by before x l' else x :: l
  end.

Definition sort_by {A} (before : A -> A -> bool) (l : list A) : list A :=
  fold_left (fun acc x => insert_by before x acc) l [].

(* ------------------------------------------------------------------ *)
(** ** domain/models.py *)

Record datetime : Type := mkDatetime { dt_day : Z; dt_time : Z }.

Definition datetime_ltb (a b : datetime) : bool :=
  (dt_day a <? dt_day b) || ((dt_day a =? dt_day b) && (dt_time a <? dt_time b)).

Inductive PriorityLevel : Type :=
| LOW | MEDIUM_LOW | MEDIUM | MEDIUM_HIGH | HIGH | CRITICAL.

Definition value (p : PriorityLevel) : Z :=
  match p with
  | LOW => 0 | MEDIUM_LOW => 1 | MEDIUM => 2
  | MEDIUM_HIGH => 3 | HIGH => 4 | CRITICAL => 5
  end.

(** [PriorityLevel(v)]: lookup by value, [ValueError] when no member has it. *)
Definition PriorityLevel_of (v : Z) : Result PriorityLevel :=
  match v with
  | 0 => Ok LOW | 1 => Ok MEDIUM_LOW | 2 => Ok MEDIUM
  | 3 => Ok MEDIUM_HIGH | 4 => Ok HIGH | 5 => Ok CRITICAL
  | _ => Err ValueError
  end.

Record Order : Type := mkOrder {
  code : string;
  description : string;
  ordered_qty : Z;
  consumed_qty : Z;
  cycle_time : Q;
  doc_number : string;
  doc_date : datetime;
  due_date : datetime;
  priority_manual : option Z;
  calculated_priority : PriorityLevel
}.

Definition pending_qty (o : Order) : Z := ordered_qty o - consumed_qty o.

Definition remaining_work_hours (o : Order) : Q :=
  inject_Z (pending_qty o) * cycle_time o.

Definition set_calculated_priority (o : Order) (p : PriorityLevel) : Order :=
  {| code := code o; description := description o;
     ordered_qty := ordered_qty o; consumed_qty := consumed_qty o;
     cycle_time := cycle_time o; doc_number := doc_number o;
     doc_date := doc_date o; due_date := due_date o;
     priority_manual := priority_manual o; calculated_priority := p |}.

(* ------------------------------------------------------------------ *)
(** ** planner/algorithms.py: PriorityCalculator *)

Record PriorityCalculator : Type := mkPriorityCalculator {
  urgency_thresholds : list Z;
  size_threshold : Q
}.

Definition compute_priority (c : PriorityCalculator) (o : Order) (today : Z)
  : Result PriorityLevel :=
  match priority_manual o with
  | Some m => PriorityLevel_of (Z.min m 5)
  | None =>
      let days_left := dt_day (due_date o) - today in
      let* urgency :=
        let* t0 := py_index (urgency_thresholds c) 0 in
        if days_left <=? t0 then Ok 3 else
        let* t1 := py_index (urgency_thresholds c) 1 in
        if days_left <=? t1 then Ok 2 else
        let* t2 := py_index (urgency_thresholds c) 2 in
        if days_left <=? t2 then Ok 1 else Ok 0 in
      let size_hours := (inject_Z (pending_qty o) * cycle_time o)%Q in
      let size := if negb (Qle_bool size_hours (size_threshold c)) then 1 else 0 in
      PriorityLevel_of (Z.min (urgency + size + 1) 5)
  end.

(* ------------------------------------------------------------------ *)
(** ** domain/models.py: Worker, Allocation, WorkSchedule *)

Record Worker : Type := mkWorker {
  id : Z;
  name : string;
  hours_per_day : Q;
  skills : list string;
  availability : list (Z * Q)
}.

Definition set_availability (w : Worker) (av : list (Z * Q)) : Worker :=
  {| id := id w; name := name w; hours_per_day := hours_per_day w;
     skills := skills w; availability := av |}.

Definition get_available_hours (w : Worker) (day : Z) : Q :=
  match dict_get Z.eqb (availability w) day with
  | Some h => h
  | None => hours_per_day w
  end.

(** Returns the updated worker and the hours actually allocated. *)
Definition allocate_hours (w : Worker) (day : Z) (hours : Q) : Worker * Q :=
  let available := get_available_hours w day in
  let allocated := py_min available hours in
  (set_availability w (dict_set Z.eqb (availability w) day (available - allocated)%Q),
   allocated).
Arguments allocate_hours : simpl never.

Record Allocation : Type := mkAllocation {
  order_code : string;
  worker_id : Z;
  allocation_date : Z;
  hours : Q;
  completed : bool
}.

Definition get_worker_schedule (s : list Allocation) (wid : Z) : list Allocation :=
  filter (fun a => worker_id a =? wid) s.

Definition get_order_schedule (s : list Allocation) (c : string) : list Allocation :=
  filter (fun a => String.eqb (order_code a) c) s.

Definition get_day_schedule (s : list Allocation) (day : Z) : list Allocation :=
  filter (fun a => allocation_date a =? day) s.

(* ------------------------------------------------------------------ *)
(** ** planner/algorithms.py: Scheduler *)

Record Scheduler : Type := mkScheduler {
  workers : list Worker;
  priority_calculator : PriorityCalculator;
  schedule : list Allocation
}.

(** The sort key [(5 - o.calculated_priority.value, o.due_date)]. *)
Definition order_key_le (a b : Order) : bool :=
  let ka := 5 - value (calculated_priority a) in
  let kb := 5 - value (calculated_priority b) in
  (ka <? kb) || ((ka =? kb) && negb (datetime_ltb (due_date b) (due_date a))).

Fixpoint compute_all (c : PriorityCalculator) (orders : list Order) (today : Z)
  : Result (list Order) :=
  match orders with
  | [] => Ok []
  | o :: os =>
      let* p := compute_priority c o today in
      let* os' := compute_all c os today in
      Ok (set_calculated_priority o p :: os')
  end.

(** Returns the orders with their priority written back (the caller's
    list, mutated in place) and the sorted list. *)
Definition prioritize_orders (s : Scheduler) (orders : list Order) (today : Z)
  : Result (list Order * list Order) :=
  let* orders' := compute_all (priority_calculator s) orders today in
  Ok (orders', sort_by order_key_le orders').

(** [not w.skills or order.code in w.skills] *)
Definition eligible (w : Worker) (c : string) : bool :=
  match skills w with
  | [] => true
  | sk => existsb (String.eqb c) sk
  end.

(** Workers are referred to by their position in [self.workers]. *)
Fixpoint eligible_from (ws : list Worker) (c : string) (i : nat) : list nat :=
  match ws with
  | [] => []
  | w :: ws' => if eligible w c then i :: eligible_from ws' c (S i)
                else eligible_from ws' c (S i)
  end.

Definition avail_at (ws : list Worker) (day : Z) (i : nat) : Q :=
  match nth_error ws i with
  | Some w => get_available_hours w day
  | None => 0%Q
  end.

(** [sorted(eligible_workers, key=get_available_hours(day), reverse=True)] *)
Definition sort_workers (ws : list Worker) (day : Z) (idx : list nat) : list nat :=
  sort_by (fun j i => Qle_bool (avail_at ws day i) (avail_at ws day j)) idx.

Fixpoint replace_nth {A} (l : list A) (i : nat) (x : A) : list A :=
  match l, i with
  | [], _ => []
  | _ :: l', O => x :: l'
  | y :: l', S i' => y :: replace_nth l' i' x
  end.

(** The loop [for worker in workers_sorted] of one day; returns the
    workers, the remaining hours and the allocations appended. *)
Fixpoint alloc_workers (o : Order) (day : Z) (idx : list nat) (ws : list Worker)
  (remaining : Q) : list Worker * Q * list Allocation :=
  match idx with
  | [] => (ws, remaining, [])
  | i :: idx' =>
      match nth_error ws i with
      | None => (ws, remaining, [])
      | Some w =>
          let (w', allocated) := allocate_hours w day remaining in
          let ws1 := replace_nth ws i w' in
          if negb (Qle_bool allocated 0) then
            let a := mkAllocation (code o) (id w) day allocated false in
            let remaining1 := (remaining - allocated)%Q in
            if Qle_bool remaining1 0 then (ws1, remaining1, [a])
            else
              let '(ws2, r2, al) := alloc_workers o day idx' ws1 remaining1 in
              (ws2, r2, a :: al)
          else alloc_workers o day idx' ws1 remaining
      end
  end.

(** The loop [for day in work_dates]. *)
Fixpoint alloc_days (o : Order) (days : list Z) (ws : list Worker) (remaining : Q)
  : list Worker * Q * list Allocation :=
  match days with
  | [] => (ws, remaining, [])
  | day :: days' =>
      if Qle_bool remaining 0 then (ws, remaining, [])
      else
        let workers_sorted :=
          sort_workers ws day (eligible_from ws (code o) O) in
        match workers_sorted with
        | [] => alloc_days o days' ws remaining
        | _ =>
            let '(ws1, r1, al1) := alloc_workers o day workers_sorted ws remaining in
            let '(ws2, r2, al2) := alloc_days o days' ws1 r1 in
            (ws2, r2, al1 ++ al2)
        end
  end.

(** The body of [for order in prioritized_orders]. *)
Definition schedule_order (o : Order) (days : list Z) (ws : list Worker)
  : list Worker * list Allocation :=
  let remaining_hours := remaining_work_hours o in
  if Qle_bool remaining_hours 0 then (ws, [])
  else let '(ws', _, al) := alloc_days o days ws remaining_hours in (ws', al).

Fixpoint schedule_orders (os : list Order) (days : list Z) (ws : list Worker)
  : list Worker * list Allocation :=
  match os with
  | [] => (ws, [])
  | o :: os' =>
      let '(ws1, al1) := schedule_order o days ws in
      let '(ws2, al2) := schedule_orders os' days ws1 in
      (ws2, al1 ++ al2)
  end.

Definition work_dates (start_date days_ahead : Z) : list Z :=
  map (fun i => start_date + Z.of_nat i) (seq 0 (Z.to_nat days_ahead)).

(** [create_schedule]: returns the scheduler (workers' availability and
    [self.schedule] updated; the schedule is the value returned) and the
    caller's orders with [calculated_priority] written. An exception of
    [compute_priority] is propagated; the priorities already written to
    earlier orders before it are not kept in the model. *)
Definition create_schedule (s : Scheduler) (orders : list Order)
  (start_date days_ahead : Z) : Result (Scheduler * list Order) :=
  let* pr := prioritize_orders s orders start_date in
  let '(orders', prioritized_orders) := pr in
  let ws0 := map (fun w => set_availability w []) (workers s) in
  let '(ws, al) :=
    schedule_orders prioritized_orders (work_dates start_date days_ahead) ws0 in
  Ok (mkScheduler ws (priority_calculator s) al, orders').

(** [check_delays]: [order.code -> completion - due] (days). *)
Definition check_delays (s : Scheduler) (orders : list Order) : list (string * Z) :=
  fold_left
    (fun delays o =>
       match get_order_schedule (schedule s) (code o) with
       | [] => delays
       | a :: rest =>
           let completion_date :=
             fold_left (fun m d => if m <? d then d else m)
               (map allocation_date rest) (allocation_date a) in
           if dt_day (due_date o) <? completion_date
           then dict_set String.eqb delays (code o)
                  (completion_date - dt_day (due_date o))
           else delays
       end)
    orders [].

(* ------------------------------------------------------------------ *)
(** ** domain/events.py

    An event object is its type tag and its attribute dictionary: every
    [__init__] stores each of its parameters as an attribute. Reading an
    attribute the object does not have raises [AttributeError]; calling a
    constructor with a keyword it does not declare, or without a required
    argument, raises [TypeError]. The clock is not modelled: [timestamp]
    keeps the argument given ([None] by default). *)

Inductive Value : Type :=
| VStr (s : string)
| VInt (z : Z)
| VNum (q : Q)
| VDate (d : Z)
| VDatetime (t : datetime)
| VHoursMap (m : list (Z * Q))
| VNone.

Inductive EventType : Type :=
| ORDER_UPDATED | ORDER_CREATED | BID_REQUEST | BID_RESPONSE
| ALLOCATION_AWARD | PROGRESS_UPDATE | PRIORITY_CHANGE | SCHEDULE_UPDATED.

Record Event : Type := mkEvent {
  type : EventType;
  attrs : list (string * Value)
}.

Definition getattr (e : Event) (n : string) : Result Value :=
  match dict_get String.eqb (attrs e) n with
  | Some v => Ok v
  | None => Err AttributeError
  end.

(** Binding keyword arguments to [(name, default)] parameters. *)
Definition bind_args (params : list (string * option Value))
  (kwargs : list (string * Value)) : Result (list Value) :=
  if forallb (fun kv => existsb (fun p => String.eqb (fst p) (fst kv)) params) kwargs
  then
    fold_right
      (fun p acc =>
         let* vs := acc in
         match dict_get String.eqb kwargs (fst p) with
         | Some v => Ok (v :: vs)
         | None => match snd p with Some v => Ok (v :: vs) | None => Err TypeError end
         end)
      (Ok []) params
  else Err TypeError.

Definition new_event (ty : EventType) (params : list (string * option Value))
  (kwargs : list (string * Value)) : Result Event :=
  let* vs := bind_args params kwargs in
  Ok (mkEvent ty (combine (map fst params) vs)).

Definition OrderUpdated_new : list (string * Value) -> Result Event :=
  new_event ORDER_UPDATED
    [("order_code", None); ("ordered_qty", None); ("consumed_qty", None);
     ("due_date", None); ("priority_manual", Some VNone); ("timestamp", Some VNone)].

Definition OrderCreated_new : list (string * Value) -> Result Event :=
  new_event ORDER_CREATED
    [("order_code", None); ("description", None); ("ordered_qty", None);
     ("consumed_qty", None); ("cycle_time", None); ("doc_number", None);
     ("doc_date", None); ("due_date", None); ("priority_manual", Some VNone);
     ("timestamp", Some VNone)].

Definition BidRequest_new : list (string * Value) -> Result Event :=
  new_event BID_REQUEST
    [("order_code", None); ("work_hours", None); ("due_date", None);
     ("timestamp", Some VNone)].

Definition BidResponse_new : list (string * Value) -> Result Event :=
  new_event BID_RESPONSE
    [("order_code", None); ("worker_id", None); ("capacity", None);
     ("proposed_dates", None); ("timestamp", Some VNone)].

Definition AllocationAward_new : list (string * Value) -> Result Event :=
  new_event ALLOCATION_AWARD
    [("order_code", None); ("worker_id", None); ("allocations", None);
     ("timestamp", Some VNone)].

Definition ProgressUpdate_new : list (string * Value) -> Result Event :=
  new_event PROGRESS_UPDATE
    [("order_code", None); ("worker_id", None); ("qty_done", None);
     ("allocation_date", None); ("timestamp", Some VNone)].

Definition PriorityChange_new : list (string * Value) -> Result Event :=
  new_event PRIORITY_CHANGE
    [("order_code", None); ("new_priority", None); ("timestamp", Some VNone)].

Definition ScheduleUpdated_new : list (string * Value) -> Result Event :=
  new_event SCHEDULE_UPDATED [("timestamp", Some VNone)].

(* ------------------------------------------------------------------ *)
(** ** A state and exception monad for the agents' coroutines

    A handler maps the agent's state to its outcome and the state it leaves,
    also when it raises (Python keeps the mutations made before the
    exception). [event_queue.put] appends to the agent's outbox. *)

Definition SE (S A : Type) : Type := S -> Result A * S.

Definition se_ret {S A} (a : A) : SE S A := fun st => (Ok a, st).

Definition se_bind {S A B} (m : SE S A) (f : A -> SE S B) : SE S B :=
  fun st => match m st with
            | (Ok a, st') => f a st'
            | (Err e, st') => (Err e, st')
            end.

Definition se_lift {S A} (r : Result A) : SE S A := fun st => (r, st).
Definition se_get {S} : SE S S := fun st => (Ok st, st).
Definition se_put {S} (st : S) : SE S unit := fun _ => (Ok tt, st).

Notation "x <-- m ;; f" := (se_bind m (fun x => f))
  (at level 61, m at next level, right associativity).
Notation "m ;;; f" := (se_bind m (fun _ => f))
  (at level 61, right associativity).

Definition as_str (v : Value) : Result string :=
  match v with VStr s => Ok s | _ => Err TypeError end.
Definition as_int (v : Value) : Result Z :=
  match v with VInt z => Ok z | _ => Err TypeError end.
Definition as_num (v : Value) : Result Q :=
  match v with VNum q => Ok q | VInt z => Ok (inject_Z z) | _ => Err TypeError end.
Definition as_datetime (v : Value) : Result datetime :=
  match v with VDatetime t => Ok t | _ => Err TypeError end.
Definition as_hours_map (v : Value) : Result (list (Z * Q)) :=
  match v with VHoursMap m => Ok m | _ => Err TypeError end.
(** A [dict] key: only a string can be one of the [doc_number] keys. *)
Definition as_key (v : Value) : option string :=
  match v with VStr s => Some s | _ => None end.

(* ------------------------------------------------------------------ *)
(** ** planner/planner_agent.py *)

Record PlannerAgent : Type := mkPlannerAgent {
  scheduler : Scheduler;            (** [self.workers] is [scheduler.workers] *)
  orders : list (string * Order);   (** keyed by [doc_number] *)
  active_bids : list (string * list Event);
  planner_schedule : list Allocation;
  planner_outbox : list Event
}.

Definition set_orders (st : PlannerAgent) (os : list (string * Order)) : PlannerAgent :=
  mkPlannerAgent (scheduler st) os (active_bids st) (planner_schedule st) (planner_outbox st).

Definition set_active_bids (st : PlannerAgent) (ab : list (string * list Event))
  : PlannerAgent :=
  mkPlannerAgent (scheduler st) (orders st) ab (planner_schedule st) (planner_outbox st).

Fixpoint dict_del {K V} (eqk : K -> K -> bool) (d : list (K * V)) (k : K)
  : list (K * V) :=
  match d with
  | [] => []
  | (k', v) :: d' => if eqk k' k then d' else (k', v) :: dict_del eqk d' k
  end.

(** [await self.event_queue.put(e)] for an event under construction. *)
Definition p_emit (r : Result Event) : SE PlannerAgent unit :=
  e <-- se_lift r ;;
  fun st => (Ok tt, mkPlannerAgent (scheduler st) (orders st) (active_bids st)
                      (planner_schedule st) (planner_outbox st ++ [e])).

Definition attr_str (e : Event) (n : string) : Result string :=
  let* v := getattr e n in as_str v.
Definition attr_int (e : Event) (n : string) : Result Z :=
  let* v := getattr e n in as_int v.
Definition attr_num (e : Event) (n : string) : Result Q :=
  let* v := getattr e n in as_num v.
Definition attr_datetime (e : Event) (n : string) : Result datetime :=
  let* v := getattr e n in as_datetime v.
Definition attr_opt_int (e : Event) (n : string) : Result (option Z) :=
  let* v := getattr e n in
  match v with VNone => Ok None | VInt z => Ok (Some z) | _ => Err TypeError end.

Definition update_order (o : Order) (oq cq : Z) (due : datetime) (pm : option Z)
  (p : PriorityLevel) : Order :=
  mkOrder (code o) (description o) oq cq (cycle_time o) (doc_number o)
    (doc_date o) due pm p.

(** Writes the orders returned by the scheduler (those with positive
    pending quantity, in the dictionary's order) back into the dictionary:
    they are the same objects. *)
Fixpoint writeback (d : list (string * Order)) (upd : list Order) : list (string * Order) :=
  match d with
  | [] => []
  | (k, o) :: d' =>
      if 0 <? pending_qty o then
        match upd with
        | u :: upd' => (k, u) :: writeback d' upd'
        | [] => (k, o) :: writeback d' []
        end
      else (k, o) :: writeback d' upd
  end.

Definition recalculate_schedule (today : Z) : SE PlannerAgent unit :=
  st <-- se_get ;;
  let active_orders := filter (fun o => 0 <? pending_qty o) (map snd (orders st)) in
  r <-- se_lift (create_schedule (scheduler st) active_orders today 30) ;;
  se_put (mkPlannerAgent (fst r) (writeback (orders st) (snd r)) (active_bids st)
            (schedule (fst r)) (planner_outbox st)) ;;;
  p_emit (ScheduleUpdated_new []).

(** [order_code = event.doc_number; if order_code not in self.orders: return]
    followed by [body] on the order found. *)
Definition with_known_order (e : Event) (body : string -> Order -> SE PlannerAgent unit)
  : SE PlannerAgent unit :=
  v <-- se_lift (getattr e "doc_number") ;;
  st <-- se_get ;;
  match as_key v with
  | None => se_ret tt
  | Some k =>
      match dict_get String.eqb (orders st) k with
      | None => se_ret tt
      | Some o => body k o
      end
  end.

Definition store_order (k : string) (o : Order) : SE PlannerAgent unit :=
  st <-- se_get ;; se_put (set_orders st (dict_set String.eqb (orders st) k o)).

Definition handle_order_updated (e : Event) (today : Z) : SE PlannerAgent unit :=
  with_known_order e (fun k o =>
    oq <-- se_lift (attr_int e "ordered_qty") ;;
    cq <-- se_lift (attr_int e "consumed_qty") ;;
    due <-- se_lift (attr_datetime e "due_date") ;;
    pm <-- se_lift (attr_opt_int e "priority_manual") ;;
    let pm' := match pm with Some m => Some m | None => priority_manual o end in
    let o1 := update_order o oq cq due pm' (calculated_priority o) in
    store_order k o1 ;;;
    st <-- se_get ;;
    p <-- se_lift (compute_priority (priority_calculator (scheduler st)) o1 today) ;;
    store_order k (set_calculated_priority o1 p) ;;;
    recalculate_schedule today).

Definition handle_progress_update (e : Event) (today : Z) : SE PlannerAgent unit :=
  with_known_order e (fun k o =>
    q <-- se_lift (attr_int e "qty_done") ;;
    let o1 := update_order o (ordered_qty o) (consumed_qty o + q) (due_date o)
                (priority_manual o) (calculated_priority o) in
    store_order k o1 ;;;
    if ordered_qty o1 <=? consumed_qty o1 then se_ret tt
    else recalculate_schedule today).

Definition handle_priority_change (e : Event) (today : Z) : SE PlannerAgent unit :=
  with_known_order e (fun k o =>
    np <-- se_lift (attr_int e "new_priority") ;;
    let o1 := update_order o (ordered_qty o) (consumed_qty o) (due_date o)
                (Some np) (calculated_priority o) in
    store_order k o1 ;;;
    st <-- se_get ;;
    p <-- se_lift (compute_priority (priority_calculator (scheduler st)) o1 today) ;;
    store_order k (set_calculated_priority o1 p) ;;;
    recalculate_schedule today).

Definition start_allocation_process (o : Order) : SE PlannerAgent unit :=
  let work_hours := remaining_work_hours o in
  if Qle_bool work_hours 0 then se_ret tt
  else
    st <-- se_get ;;
    se_put (set_active_bids st (dict_set String.eqb (active_bids st) (doc_number o) [])) ;;;
    p_emit (BidRequest_new
              [("order_code", VStr (code o)); ("doc_number", VStr (doc_number o));
               ("work_hours", VNum work_hours); ("due_date", VDatetime (due_date o))]).

Definition handle_order_created (e : Event) : SE PlannerAgent unit :=
  c <-- se_lift (attr_str e "order_code") ;;
  ds <-- se_lift (attr_str e "description") ;;
  oq <-- se_lift (attr_int e "ordered_qty") ;;
  cq <-- se_lift (attr_int e "consumed_qty") ;;
  ct <-- se_lift (attr_num e "cycle_time") ;;
  dn <-- se_lift (attr_str e "doc_number") ;;
  dd <-- se_lift (attr_datetime e "doc_date") ;;
  due <-- se_lift (attr_datetime e "due_date") ;;
  pm <-- se_lift (attr_opt_int e "priority_manual") ;;
  let o := mkOrder c ds oq cq ct dn dd due pm MEDIUM in
  store_order dn o ;;;
  start_allocation_process o.

(** The inner loop [for day, hours in proposed_dates.items()]. *)
Fixpoint assign_days (wid : Z) (pd : list (Z * Q)) (remaining : Q)
  (acc : list (Z * list (Z * Q))) : list (Z * list (Z * Q)) * Q :=
  match pd with
  | [] => (acc, remaining)
  | (day, h) :: pd' =>
      if Qle_bool remaining 0 then (acc, remaining)
      else
        let allocated := py_min h remaining in
        let cur := match dict_get Z.eqb acc wid with Some m => m | None => [] end in
        assign_days wid pd' (remaining - allocated)%Q
          (dict_set Z.eqb acc wid (dict_set Z.eqb cur day allocated))
  end.

(** The loop [for bid in bids]. *)
Fixpoint bid_allocations (bids : list Event) (remaining : Q)
  (acc : list (Z * list (Z * Q))) : Result (list (Z * list (Z * Q))) :=
  match bids with
  | [] => Ok acc
  | b :: bs =>
      if Qle_bool remaining 0 then Ok acc
      else
        let* wid := attr_int b "worker_id" in
        let* pd := (let* v := getattr b "proposed_dates" in as_hours_map v) in
        let acc1 := match dict_get Z.eqb acc wid with
                    | Some _ => acc
                    | None => dict_set Z.eqb acc wid []
                    end in
        let '(acc2, r2) := assign_days wid pd remaining acc1 in
        bid_allocations bs r2 acc2
  end.

Fixpoint send_awards (o : Order) (k : string) (allocs : list (Z * list (Z * Q)))
  : SE PlannerAgent unit :=
  match allocs with
  | [] => se_ret tt
  | (wid, []) :: rest => send_awards o k rest
  | (wid, wa) :: rest =>
      p_emit (AllocationAward_new
                [("order_code", VStr (code o)); ("doc_number", VStr k);
                 ("worker_id", VInt wid); ("allocations", VHoursMap wa)]) ;;;
      send_awards o k rest
  end.

Fixpoint map_result {A B} (f : A -> Result B) (l : list A) : Result (list B) :=
  match l with
  | [] => Ok []
  | x :: l' => let* y := f x in let* ys := map_result f l' in Ok (y :: ys)
  end.

Definition process_bids (k : string) : SE PlannerAgent unit :=
  st <-- se_get ;;
  match dict_get String.eqb (orders st) k, dict_get String.eqb (active_bids st) k with
  | Some o, Some bids =>
      caps <-- se_lift (map_result (fun b => attr_num b "capacity") bids) ;;
      (* [bids.sort(key=capacity, reverse=True)], in place *)
      let sorted := map snd (sort_by (fun y x => Qle_bool (fst x) (fst y))
                                     (combine caps bids)) in
      se_put (set_active_bids st (dict_set String.eqb (active_bids st) k sorted)) ;;;
      allocs <-- se_lift (bid_allocations sorted (remaining_work_hours o) []) ;;
      send_awards o k allocs ;;;
      st2 <-- se_get ;;
      se_put (set_active_bids st2 (dict_del String.eqb (active_bids st2) k)) ;;;
      p_emit (ScheduleUpdated_new [])
  | _, _ => se_ret tt
  end.

Definition handle_bid_response (e : Event) : SE PlannerAgent unit :=
  v <-- se_lift (getattr e "doc_number") ;;
  st <-- se_get ;;
  match as_key v with
  | None => se_ret tt
  | Some k =>
      match dict_get String.eqb (orders st) k, dict_get String.eqb (active_bids st) k with
      | Some _, Some bids =>
          let bids' := bids ++ [e] in
          se_put (set_active_bids st (dict_set String.eqb (active_bids st) k bids')) ;;;
          if Nat.eqb (List.length bids') (List.length (workers (scheduler st)))
          then process_bids k else se_ret tt
      | _, _ => se_ret tt
      end
  end.

(** One iteration of [PlannerAgent.start]. *)
Definition planner_dispatch (e : Event) (today : Z) : SE PlannerAgent unit :=
  match type e with
  | ORDER_CREATED => handle_order_created e
  | ORDER_UPDATED => handle_order_updated e today
  | BID_RESPONSE => handle_bid_response e
  | PROGRESS_UPDATE => handle_progress_update e today
  | PRIORITY_CHANGE => handle_priority_change e today
  | _ => se_ret tt
  end.

(* ------------------------------------------------------------------ *)
(** ** planner/worker_agent.py *)

Record WorkerAgent : Type := mkWorkerAgent {
  agent_worker : Worker;
  days_ahead : Z;
  agent_allocations : list Allocation;
  agent_active_bids : list string;
  agent_outbox : list Event
}.

(** The loop [for day in work_dates] of [handle_bid_request]. *)
Fixpoint propose (w : Worker) (days : list Z) (remaining : Q) (proposed : list (Z * Q))
  : list (Z * Q) :=
  match days with
  | [] => proposed
  | day :: days' =>
      let available_hours := get_available_hours w day in
      if negb (Qle_bool available_hours 0) then
        let allocated := py_min available_hours remaining in
        let proposed' := dict_set Z.eqb proposed day allocated in
        let remaining' := (remaining - allocated)%Q in
        if Qle_bool remaining' 0 then proposed' else propose w days' remaining' proposed'
      else propose w days' remaining proposed
  end.

Definition handle_bid_request (e : Event) (today : Z) : SE WorkerAgent unit :=
  order_code <-- se_lift (attr_str e "order_code") ;;
  work_hours <-- se_lift (attr_num e "work_hours") ;;
  due <-- se_lift (attr_datetime e "due_date") ;;
  wa <-- se_get ;;
  let w := agent_worker wa in
  if negb (eligible w order_code) then se_ret tt
  else
    let bids' := if existsb (String.eqb order_code) (agent_active_bids wa)
                 then agent_active_bids wa else agent_active_bids wa ++ [order_code] in
    let horizon_end := today + days_ahead wa in
    let end_date := if horizon_end <? dt_day due then horizon_end else dt_day due in
    let dates := map (fun i => today + Z.of_nat i)
                   (seq 0 (Z.to_nat (end_date - today + 1))) in
    let proposed := propose w dates work_hours [] in
    let total_capacity := fold_left (fun acc kv => acc + snd kv)%Q proposed 0%Q in
    se_put (mkWorkerAgent w (days_ahead wa) (agent_allocations wa) bids' (agent_outbox wa)) ;;;
    resp <-- se_lift (BidResponse_new
                        [("order_code", VStr order_code); ("worker_id", VInt (id w));
                         ("capacity", VNum total_capacity);
                         ("proposed_dates", VHoursMap proposed)]) ;;
    wa2 <-- se_get ;;
    se_put (mkWorkerAgent (agent_worker wa2) (days_ahead wa2) (agent_allocations wa2)
              (agent_active_bids wa2) (agent_outbox wa2 ++ [resp])).

(** [WorkerAgent.handle_allocation_award]: the loop
    [for day, hours in allocations.items()]. *)
Fixpoint apply_award (w : Worker) (oc : string) (award : list (Z * Q))
  (als : list Allocation) : Worker * list Allocation :=
  match award with
  | [] => (w, als)
  | (day, h) :: rest =>
      let available := get_available_hours w day in
      let w1 := set_availability w (dict_set Z.eqb (availability w) day (available - h)%Q) in
      apply_award w1 oc rest (als ++ [mkAllocation oc (id w1) day h false])
  end.

(** [self.active_bids] is a set of codes: [discard] removes the code. *)
Definition handle_allocation_award (e : Event) : SE WorkerAgent unit :=
  oc <-- se_lift (attr_str e "order_code") ;;
  wid <-- se_lift (attr_int e "worker_id") ;;
  allocations <-- se_lift (let* v := getattr e "allocations" in as_hours_map v) ;;
  wa <-- se_get ;;
  if negb (wid =? id (agent_worker wa)) then se_ret tt
  else
    let bids' := filter (fun c => negb (String.eqb c oc)) (agent_active_bids wa) in
    let '(w', als') := apply_award (agent_worker wa) oc allocations (agent_allocations wa) in
    se_put (mkWorkerAgent w' (days_ahead wa) als' bids' (agent_outbox wa)).

(** The loop of [report_progress]: the first allocation of the code on the
    date is marked completed. *)
Fixpoint mark_first (oc : string) (day : Z) (als : list Allocation) : list Allocation :=
  match als with
  | [] => []
  | a :: rest =>
      if String.eqb (order_code a) oc && (allocation_date a =? day)
      then mkAllocation (order_code a) (worker_id a) (allocation_date a) (hours a) true :: rest
      else a :: mark_first oc day rest
  end.

Definition report_progress (oc : string) (qty_done day : Z) : SE WorkerAgent unit :=
  wa <-- se_get ;;
  update <-- se_lift (ProgressUpdate_new
                        [("order_code", VStr oc); ("worker_id", VInt (id (agent_worker wa)));
                         ("qty_done", VInt qty_done); ("allocation_date", VDate day)]) ;;
  se_put (mkWorkerAgent (agent_worker wa) (days_ahead wa) (agent_allocations wa)
            (agent_active_bids wa) (agent_outbox wa ++ [update])) ;;;
  wa2 <-- se_get ;;
  se_put (mkWorkerAgent (agent_worker wa2) (days_ahead wa2)
            (mark_first oc day (agent_allocations wa2))
            (agent_active_bids wa2) (agent_outbox wa2)).

(** One iteration of [WorkerAgent.start]. *)
Definition worker_dispatch (e : Event) (today : Z) : SE WorkerAgent unit :=
  match type e with
  | BID_REQUEST => handle_bid_request e today
  | ALLOCATION_AWARD => handle_allocation_award e
  | _ => se_ret tt
  end.

(* ------------------------------------------------------------------ *)
(** ** planner/algorithms.py: the reports of the Scheduler *)

(** [get_worker_load]: [worker_load[worker_id]] raises [KeyError] for an
    allocation whose worker is not one of [self.workers]. *)
Definition get_worker_load (s : Scheduler) : Result (list (Z * list (Z * Q))) :=
  fold_left
    (fun acc a =>
       let* worker_load := acc in
       match dict_get Z.eqb worker_load (worker_id a) with
       | None => Err KeyError
       | Some m =>
           let day := allocation_date a in
           let m1 := match dict_get Z.eqb m day with
                     | Some _ => m
                     | None => dict_set Z.eqb m day 0%Q
                     end in
           let cur := match dict_get Z.eqb m1 day with Some h => h | None => 0%Q end in
           Ok (dict_set Z.eqb worker_load (worker_id a)
                 (dict_set Z.eqb m1 day (cur + hours a)%Q))
       end)
    (schedule s)
    (Ok (fold_left (fun d w => dict_set Z.eqb d (id w) []) (workers s) [])).

Definition get_order_progress (orders : list Order) : list (string * Q) :=
  fold_left
    (fun progress o =>
       let total_hours := (inject_Z (ordered_qty o) * cycle_time o)%Q in
       if Qle_bool total_hours 0 then dict_set String.eqb progress (code o) 100%Q
       else
         let consumed_hours := (inject_Z (consumed_qty o) * cycle_time o)%Q in
         let percentage := (consumed_hours / total_hours * 100)%Q in
         dict_set String.eqb progress (code o) (py_min percentage 100))
    orders [].

(* ------------------------------------------------------------------ *)
(** ** data_loader/excel_monitor.py: [_detect_changes]

    The rows already parsed into orders are the input. The two loops run
    over Python sets ([current_codes - known_codes] and their
    intersection), whose iteration order is not fixed: it is an argument
    here. [asyncio.create_task(self.event_queue.put(event))] appends the
    event to the queue. *)

Record ExcelMonitor : Type := mkExcelMonitor {
  known_orders : list (string * Order);
  monitor_outbox : list Event
}.

Definition opt_int_value (p : option Z) : Value :=
  match p with Some m => VInt m | None => VNone end.

(** [{order.code: order for order in current_orders}] *)
Definition order_dict (os : list Order) : list (string * Order) :=
  fold_left (fun d o => dict_set String.eqb d (code o) o) os [].

Definition order_created_kwargs (o : Order) : list (string * Value) :=
  [("order_code", VStr (code o)); ("description", VStr (description o));
   ("ordered_qty", VInt (ordered_qty o)); ("consumed_qty", VInt (consumed_qty o));
   ("cycle_time", VNum (cycle_time o)); ("doc_number", VStr (doc_number o));
   ("doc_date", VDatetime (doc_date o)); ("due_date", VDatetime (due_date o));
   ("priority_manual", opt_int_value (priority_manual o))].

Definition order_updated_kwargs (o : Order) : list (string * Value) :=
  [("order_code", VStr (code o)); ("ordered_qty", VInt (ordered_qty o));
   ("consumed_qty", VInt (consumed_qty o)); ("due_date", VDatetime (due_date o));
   ("priority_manual", opt_int_value (priority_manual o))].

Definition datetime_eqb (a b : datetime) : bool :=
  (dt_day a =? dt_day b) && (dt_time a =? dt_time b).

Definition opt_Z_eqb (a b : option Z) : bool :=
  match a, b with
  | Some x, Some y => x =? y
  | None, None => true
  | _, _ => false
  end.

Definition order_changed (current known : Order) : bool :=
  negb (ordered_qty current =? ordered_qty known) ||
  negb (consumed_qty current =? consumed_qty known) ||
  negb (datetime_eqb (due_date current) (due_date known)) ||
  negb (opt_Z_eqb (priority_manual current) (priority_manual known)).

Definition m_emit (r : Result Event) : SE ExcelMonitor unit :=
  e <-- se_lift r ;;
  fun st => (Ok tt, mkExcelMonitor (known_orders st) (monitor_outbox st ++ [e])).

Fixpoint created_loop (cur : list (string * Order)) (codes : list string)
  : SE ExcelMonitor unit :=
  match codes with
  | [] => se_ret tt
  | c :: cs =>
      match dict_get String.eqb cur c with
      | None => se_lift (Err KeyError)
      | Some o => m_emit (OrderCreated_new (order_created_kwargs o)) ;;; created_loop cur cs
      end
  end.

Fixpoint updated_loop (cur : list (string * Order)) (codes : list string)
  : SE ExcelMonitor unit :=
  match codes with
  | [] => se_ret tt
  | c :: cs =>
      st <-- se_get ;;
      match dict_get String.eqb cur c, dict_get String.eqb (known_orders st) c with
      | Some current, Some known =>
          (if order_changed current known
           then m_emit (OrderUpdated_new (order_updated_kwargs current))
           else se_ret tt) ;;;
          updated_loop cur cs
      | _, _ => se_lift (Err KeyError)
      end
  end.

(** [new_codes] and [updated_codes] are the iteration orders of the two sets. *)
Definition detect_changes (current_orders : list Order) (new_codes updated_codes : list string)
  : SE ExcelMonitor unit :=
  let current_order_dict := order_dict current_orders in
  created_loop current_order_dict new_codes ;;;
  updated_loop current_order_dict updated_codes ;;;
  st <-- se_get ;;
  se_put (mkExcelMonitor current_order_dict (monitor_outbox st)).

(** [l] lists the elements of the set [P], each once: a possible iteration
    order of that set. *)
Definition enumerates (l : list string) (P : string -> Prop) : Prop :=
  NoDup l /\ forall c, In c l <-> P c.

(* ------------------------------------------------------------------ *)
(** ** Reading of the specification (for the priority claims) *)

(** Section 4.1: urgency tier from three ascending thresholds. *)
Definition spec_urgency (t_high t_med t_low days_left : Z) : Z :=
  if days_left <=? t_high then 3
  else if days_left <=? t_med then 2
  else if days_left <=? t_low then 1
  else 0.

(** Section 4.1: size bit, 1 when [pending * cycle_time > size_threshold]. *)
Definition spec_size (o : Order) (thr : Q) : Z :=
  if Qlt_le_dec thr (inject_Z (pending_qty o) * cycle_time o) then 1 else 0.

(* ------------------------------------------------------------------ *)
(** ** Concrete inputs *)

Definition day_at (d : Z) : datetime := mkDatetime d 0.

(** The calculator of the repository's test: thresholds [2,5,10], size 8. *)
Definition test_calc : PriorityCalculator := mkPriorityCalculator [2; 5; 10] 8.

(** 10 pending work-hours, due one day after [today = 0]. *)
Definition order_due_tomorrow : Order :=
  mkOrder "A" "test" 10 0 1 "1" (day_at 0) (day_at 1) None MEDIUM.

Definition order_with_override (m : Z) : Order :=
  mkOrder "A" "test" 10 0 1 "1" (day_at 0) (day_at 1) (Some m) MEDIUM.

(* ------------------------------------------------------------------ *)
(** ** Auxiliary definitions for the statements *)

Definition sum_hours (l : list Allocation) : Q :=
  fold_right (fun a acc => hours a + acc)%Q 0%Q l.

(** The part of a worker that scheduling never changes. *)
Definition shp (w : Worker) : Z * Q * list string :=
  (id w, hours_per_day w, skills w).

(** What C10 asks of one allocation, relative to the workers [ws0]. *)
Definition alloc_ok (ws0 : list Worker) (days : list Z) (a : Allocation) : Prop :=
  (0 < hours a)%Q /\ In (allocation_date a) days /\
  exists w0, In w0 ws0 /\ id w0 = worker_id a /\ eligible w0 (order_code a) = true.

(** The scheduler and orders after a run (the input itself on an exception). *)
Definition run_schedule (s : Scheduler) (orders : list Order) (start_date days_ahead : Z)
  : Scheduler * list Order :=
  match create_schedule s orders start_date days_ahead with
  | Ok p => p
  | Err _ => (s, orders)
  end.

(** The orders and the sorted list of a [prioritize_orders] run (the input
    itself on an exception). *)
Definition run_prioritize (s : Scheduler) (orders : list Order) (today : Z)
  : list Order * list Order :=
  match prioritize_orders s orders today with
  | Ok p => p
  | Err _ => (orders, orders)
  end.

(** 20 work-hours due one day after day 0: three days of one worker. *)
Definition big_order_due_tomorrow : Order :=
  mkOrder "A" "big" 20 0 1 "1" (day_at 0) (day_at 1) None MEDIUM.

(** The scheduler of the repository's test: one worker with 8 hours a day. *)
Definition test_scheduler : Scheduler :=
  mkScheduler [mkWorker 1 "W1" 8 [] []] test_calc [].

(** The order of the repository's test: 5 work-hours, due in two days. *)
Definition order_five_hours : Order :=
  mkOrder "A" "test" 5 0 1 "1" (day_at 0) (day_at 2) None MEDIUM.

(** Two rows for order "A": one with nothing ordered, then one with 4 of
    10 pieces made at half an hour each. *)
Definition progress_rows : list Order :=
  [mkOrder "A" "empty" 0 0 1 "1" (day_at 0) (day_at 2) None MEDIUM;
   mkOrder "A" "half" 10 4 (1#2) "1" (day_at 0) (day_at 2) None MEDIUM].


Definition agent_w1 : WorkerAgent := mkWorkerAgent (mkWorker 1 "W1" 8 [] []) 30 [] [] [].

(** An award to worker 1 of 8 hours of order "A" on day 0 and 10 on day 1. *)
Definition award_hours : list (Z * Q) := [(0, 8%Q); (1, 10%Q)].

Definition award_a : Event :=
  mkEvent ALLOCATION_AWARD [("order_code", VStr "A"); ("doc_number", VStr "1");
                            ("worker_id", VInt 1); ("allocations", VHoursMap award_hours);
                            ("timestamp", VNone)].

(** Two rows of the order file, and a monitor that knows order "A" with
    one piece less consumed. *)
Definition excel_rows : list Order :=
  [mkOrder "A" "gear" 10 4 1 "7" (day_at 0) (day_at 5) None MEDIUM;
   mkOrder "B" "shaft" 3 0 2 "8" (day_at 0) (day_at 9) (Some 4) MEDIUM].

Definition monitor_a : ExcelMonitor :=
  mkExcelMonitor [("A", mkOrder "A" "gear" 10 3 1 "7" (day_at 0) (day_at 5) None MEDIUM)] [].

(** Hours of the allocations of worker [k] on date [d]. *)
Definition sum_wd (k d : Z) (al : list Allocation) : Q :=
  sum_hours (get_day_schedule (get_worker_schedule al k) d).

(** The capacity invariant of the scheduling loop: the hours booked for a
    worker on a date plus its stored availability make up its nominal
    hours, and the availability is not negative. *)
Definition capacity_inv (ws : list Worker) (al : list Allocation) : Prop :=
  forall i w, nth_error ws i = Some w -> forall d,
    (0 <= get_available_hours w d)%Q /\ (sum_wd (id w) d al + get_available_hours w d == hours_per_day w)%Q.

(** The load map after the allocations [p]: every worker id has a map
    whose entries are exactly the dates on which [p] books that worker,
    with the total booked hours. *)
Definition load_inv (ids : list Z) (p : list Allocation) (wl : list (Z * list (Z * Q))) : Prop :=
  (forall k, ~ In k ids -> dict_get Z.eqb wl k = None) /\
  (forall k, In k ids -> exists m, dict_get Z.eqb wl k = Some m /\
     forall d, match dict_get Z.eqb m d with
               | Some h => get_day_schedule (get_worker_schedule p k) d <> [] /\
                           (h == sum_wd k d p)%Q
               | None => get_day_schedule (get_worker_schedule p k) d = []
               end).

(** Two orders with distinct document numbers and the same product code. *)
Definition shared_code_orders : list Order :=
  [mkOrder "X" "first" 2 0 1 "1" (day_at 0) (day_at 5) None MEDIUM;
   mkOrder "X" "second" 2 0 1 "2" (day_at 0) (day_at 5) None MEDIUM].

(** Two active orders sharing the code "X": "late" (already overdue, one
    work-hour) and "rush" (manual override 5, eight work-hours, due day 5). *)
Definition overdue_shared_orders : list Order :=
  [mkOrder "X" "late" 1 0 1 "1" (day_at (-5)) (day_at (-1)) None MEDIUM;
   mkOrder "X" "rush" 8 0 1 "2" (day_at (-5)) (day_at 5) (Some 5) MEDIUM].

(** A coordinator with an open bidding round for document "1" and one
    worker: a single response is expected to close the round. *)
Definition bidding_planner : PlannerAgent :=
  mkPlannerAgent test_scheduler [("1", order_five_hours)] [("1", [])] [] [].

(** A coordinator knowing no order. *)
Definition empty_planner : PlannerAgent := mkPlannerAgent test_scheduler [] [] [] [].

Definition event_or (ty : EventType) (r : Result Event) : Event :=
  match r with Ok e => e | Err _ => mkEvent ty [] end.

Definition kw_order_updated : list (string * Value) :=
  [("order_code", VStr "X"); ("ordered_qty", VInt 5); ("consumed_qty", VInt 0);
   ("due_date", VDatetime (day_at 5))].
Definition kw_priority_change : list (string * Value) :=
  [("order_code", VStr "X"); ("new_priority", VInt 4)].
Definition kw_progress_update : list (string * Value) :=
  [("order_code", VStr "X"); ("worker_id", VInt 1); ("qty_done", VInt 1);
   ("allocation_date", VDate 0)].
Definition kw_bid_response : list (string * Value) :=
  [("order_code", VStr "A"); ("worker_id", VInt 1); ("capacity", VNum 5);
   ("proposed_dates", VHoursMap [(0, 5%Q)])].

(** A coordinator whose round for document "1" holds one response, of
    worker 1 offering 5 hours on day 0. *)
Definition bid_round_planner : PlannerAgent :=
  mkPlannerAgent test_scheduler [("1", order_five_hours)]
    [("1", [event_or BID_RESPONSE (BidResponse_new kw_bid_response)])] [] [].

(* ------------------------------------------------------------------ *)
(** ** General lemmas *)

Lemma PriorityLevel_of_value (v : Z) :
  0 <= v <= 5 -> exists lvl, PriorityLevel_of v = Ok lvl /\ value lvl = v.
Proof.
  intros Hv.
  assert (v = 0 \/ v = 1 \/ v = 2 \/ v = 3 \/ v = 4 \/ v = 5) as Hc by lia.
  destruct Hc as [->|[->|[->|[->|[->| ->]]]]]; eexists; split; reflexivity.
Qed.

Lemma PriorityLevel_of_neg (v : Z) : v < 0 -> PriorityLevel_of v = Err ValueError.
Proof. destruct v; simpl; intros; try reflexivity; lia. Qed.

Lemma py_min_le_l (a b : Q) : (py_min a b <= a)%Q.
Proof.
  unfold py_min. destruct (Qle_bool a b) eqn:E.
  - apply Qle_refl.
  - apply Qlt_le_weak, Qnot_le_lt. intro H. apply Qle_bool_iff in H. congruence.
Qed.

Lemma py_min_le_r (a b : Q) : (py_min a b <= b)%Q.
Proof.
  unfold py_min. destruct (Qle_bool a b) eqn:E.
  - apply Qle_bool_iff. exact E.
  - apply Qle_refl.
Qed.

Lemma py_min_cases (a b : Q) : py_min a b = a \/ py_min a b = b.
Proof. unfold py_min. destruct (Qle_bool a b); auto. Qed.

(* ------------------------------------------------------------------ *)
(** ** Claims about the priority calculator *)

(** C2: without a manual override, [compute_priority] with thresholds
    [[t_high; t_med; t_low]] returns the level
    [min(urgency + size + 1, 5)], the urgency tier being taken from
    [days_left = due_date - today] and the size bit from
    [pending * cycle_time > size_threshold]. *)
Theorem compute_priority_formula (t_high t_med t_low : Z) (thr : Q)
  (o : Order) (today : Z) (Hnone : priority_manual o = None) :
  exists lvl,
    compute_priority (mkPriorityCalculator [t_high; t_med; t_low] thr) o today
      = Ok lvl /\
    value lvl =
      Z.min (spec_urgency t_high t_med t_low (dt_day (due_date o) - today)
             + spec_size o thr + 1) 5.
Proof.
  unfold compute_priority, spec_urgency, spec_size. rewrite Hnone. simpl.
  set (dl := dt_day (due_date o) - today).
  set (sz := (inject_Z (pending_qty o) * cycle_time o)%Q).
  assert (Hs : (if negb (Qle_bool sz thr) then 1 else 0)
               = (if Qlt_le_dec thr sz then 1 else 0)).
  { destruct (Qlt_le_dec thr sz) as [Hlt|Hle].
    - destruct (Qle_bool sz thr) eqn:E; [|reflexivity].
      apply Qle_bool_iff in E. exfalso. apply (Qlt_not_le _ _ Hlt E).
    - apply Qle_bool_iff in Hle. rewrite Hle. reflexivity. }
  rewrite Hs.
  destruct (dl <=? t_high), (dl <=? t_med), (dl <=? t_low);
    simpl; apply PriorityLevel_of_value;
    destruct (Qlt_le_dec thr sz); lia.
Qed.

(** Witness of C2: the example of the specification. *)
Lemma compute_priority_formula_witness :
  priority_manual order_due_tomorrow = None /\
  compute_priority test_calc order_due_tomorrow 0 = Ok CRITICAL.
Proof.
  split; [reflexivity|].
  destruct (compute_priority_formula 2 5 10 8 order_due_tomorrow 0 eq_refl)
    as [lvl [H1 H2]].
  unfold test_calc. rewrite H1.
  vm_compute in H2. destruct lvl; try discriminate H2. reflexivity.
Defined.

(** C3 (counterexample): a negative override is not returned unchanged:
    [PriorityLevel(-1)] raises [ValueError]. *)
Lemma compute_priority_negative_override_raises :
  ~ (forall (c : PriorityCalculator) (o : Order) (today m : Z),
       priority_manual o = Some m ->
       exists lvl, compute_priority c o today = Ok lvl /\ value lvl = Z.min m 5).
Proof.
  intro H.
  destruct (H test_calc (order_with_override (-1)) 0 (-1) eq_refl) as [lvl [H1 _]].
  vm_compute in H1. discriminate H1.
Qed.

(** C3 (amended): with a manual override [m], [compute_priority] ignores
    the due date, the quantities and the thresholds; for [m >= 0] it
    returns the level [min(m, 5)], and for [m < 0] (no lower clamp) the
    lookup [PriorityLevel(m)] raises [ValueError]. *)
Theorem compute_priority_manual (c : PriorityCalculator) (o : Order) (today m : Z)
  (Hm : priority_manual o = Some m) :
  (0 <= m -> exists lvl, compute_priority c o today = Ok lvl /\ value lvl = Z.min m 5) /\
  (m < 0 -> compute_priority c o today = Err ValueError).
Proof.
  unfold compute_priority. rewrite Hm. split; intro Hs.
  - apply PriorityLevel_of_value. lia.
  - apply PriorityLevel_of_neg. lia.
Qed.

(** Witness of C3: an override of 7 is clamped to 5. *)
Lemma compute_priority_manual_witness :
  priority_manual (order_with_override 7) = Some 7 /\
  compute_priority test_calc (order_with_override 7) 0 = Ok CRITICAL.
Proof.
  split; [reflexivity|].
  destruct (compute_priority_manual test_calc (order_with_override 7) 0 7 eq_refl)
    as [H _].
  destruct (H ltac:(lia)) as [lvl [H1 H2]].
  rewrite H1. destruct lvl; simpl in H2; try discriminate H2. reflexivity.
Defined.

(* ------------------------------------------------------------------ *)
(** ** Lemmas on the scheduler's helpers *)

Lemma insert_by_perm {A} (b : A -> A -> bool) (x : A) (l : list A) :
  Permutation (insert_by b x l) (x :: l).
Proof.
  induction l as [|y l IH]; simpl; [reflexivity|].
  destruct (b y x); [|reflexivity].
  rewrite IH. apply perm_swap.
Qed.

Lemma sort_by_perm {A} (b : A -> A -> bool) (l : list A) :
  Permutation (sort_by b l) l.
Proof.
  unfold sort_by.
  assert (G : forall acc, Permutation
            (fold_left (fun acc x => insert_by b x acc) l acc) (l ++ acc)).
  { induction l as [|x l IH]; intro acc; simpl; [reflexivity|].
    rewrite IH, insert_by_perm. symmetry. apply Permutation_middle. }
  rewrite G, app_nil_r. reflexivity.
Qed.

Lemma nth_error_replace_nth {A} (l : list A) (i j : nat) (x : A) :
  nth_error (replace_nth l i x) j =
  if Nat.eqb i j then match nth_error l j with Some _ => Some x | None => None end
  else nth_error l j.
Proof.
  revert i j. induction l as [|y l IH]; intros i j.
  - destruct i, j; simpl; try destruct (Nat.eqb i j); reflexivity.
  - destruct i, j; simpl; try reflexivity. apply IH.
Qed.

Lemma dict_get_set_same (d : list (Z * Q)) (k : Z) (v : Q) :
  dict_get Z.eqb (dict_set Z.eqb d k v) k = Some v.
Proof.
  induction d as [|[k' v'] d IH]; simpl.
  - rewrite Z.eqb_refl. reflexivity.
  - destruct (k' =? k) eqn:E; simpl; rewrite E; [reflexivity|exact IH].
Qed.

Lemma dict_get_set_other (d : list (Z * Q)) (k k' : Z) (v : Q) :
  k <> k' -> dict_get Z.eqb (dict_set Z.eqb d k v) k' = dict_get Z.eqb d k'.
Proof.
  intro Hne. induction d as [|[k0 v0] d IH]; simpl.
  - apply Z.eqb_neq in Hne. rewrite Hne. reflexivity.
  - destruct (k0 =? k) eqn:E; simpl.
    + apply Z.eqb_eq in E. subst k0. apply Z.eqb_neq in Hne. rewrite Hne. reflexivity.
    + destruct (k0 =? k'); [reflexivity|exact IH].
Qed.

Lemma shp_allocate (w : Worker) (d : Z) (h : Q) :
  shp (fst (allocate_hours w d h)) = shp w.
Proof. reflexivity. Qed.

Lemma map_shp_replace (ws : list Worker) (i : nat) (w w' : Worker) :
  nth_error ws i = Some w -> shp w' = shp w ->
  map shp (replace_nth ws i w') = map shp ws.
Proof.
  revert i. induction ws as [|y ws IH]; intros i Hi Hs; [reflexivity|].
  destruct i; simpl in *.
  - injection Hi as ->. rewrite Hs. reflexivity.
  - f_equal. apply IH; assumption.
Qed.

Lemma eligible_shp (w w' : Worker) (c : string) :
  shp w = shp w' -> eligible w c = eligible w' c.
Proof. unfold shp, eligible. intro H. injection H as _ _ ->. reflexivity. Qed.

Lemma eligible_spec (w : Worker) (c : string) :
  eligible w c = true <-> skills w = [] \/ In c (skills w).
Proof.
  unfold eligible. destruct (skills w) as [|s sk] eqn:E.
  - split; auto.
  - rewrite existsb_exists. split.
    + intros [x [Hx Heq]]. apply String.eqb_eq in Heq. subst. right. exact Hx.
    + intros [H|H]; [discriminate|]. exists c. split; [exact H|apply String.eqb_refl].
Qed.

Lemma eligible_from_spec (ws : list Worker) (c : string) (k i : nat) :
  In i (eligible_from ws c k) ->
  (k <= i)%nat /\ exists w, nth_error ws (i - k) = Some w /\ eligible w c = true.
Proof.
  revert k. induction ws as [|w ws IH]; intros k Hin; simpl in Hin; [contradiction|].
  destruct (eligible w c) eqn:E.
  - destruct Hin as [<-|Hin].
    + split; [lia|]. exists w. rewrite Nat.sub_diag. auto.
    + destruct (IH _ Hin) as [Hk [w' [Hn He]]]. split; [lia|].
      exists w'. replace (i - k)%nat with (S (i - S k)) by lia. auto.
  - destruct (IH _ Hin) as [Hk [w' [Hn He]]]. split; [lia|].
    exists w'. replace (i - k)%nat with (S (i - S k)) by lia. auto.
Qed.

Lemma sort_workers_eligible (ws : list Worker) (day : Z) (c : string) (i : nat) :
  In i (sort_workers ws day (eligible_from ws c O)) ->
  exists w, nth_error ws i = Some w /\ eligible w c = true.
Proof.
  unfold sort_workers. intro Hin.
  apply (Permutation_in _ (sort_by_perm _ _)) in Hin.
  destruct (eligible_from_spec _ _ _ _ Hin) as [_ [w [Hn He]]].
  rewrite Nat.sub_0_r in Hn. eauto.
Qed.

Lemma shp_nth (ws ws0 : list Worker) (i : nat) (w : Worker) :
  map shp ws = map shp ws0 -> nth_error ws i = Some w ->
  exists w0, nth_error ws0 i = Some w0 /\ shp w0 = shp w.
Proof.
  intros Hs Hn.
  assert (E : nth_error (map shp ws) i = nth_error (map shp ws0) i) by (rewrite Hs; reflexivity).
  rewrite !nth_error_map, Hn in E. simpl in E.
  destruct (nth_error ws0 i) as [w0|]; [|discriminate].
  change (Some (shp w) = Some (shp w0)) in E.
  exists w0. split; [reflexivity|]. injection E as E1 E2 E3.
  unfold shp. rewrite E1, E2, E3. reflexivity.
Qed.

Lemma alloc_workers_shape (o : Order) (day : Z) (idx : list nat) :
  forall ws rem ws' r' al,
  alloc_workers o day idx ws rem = (ws', r', al) -> map shp ws' = map shp ws.
Proof.
  induction idx as [|i idx IH]; intros ws rem ws' r' al H; cbn [alloc_workers] in H.
  - injection H as <- _ _. reflexivity.
  - destruct (nth_error ws i) as [w|] eqn:Hn; [|injection H as <- _ _; reflexivity].
    destruct (allocate_hours w day rem) as [w' m] eqn:Ha.
    cbv beta iota zeta in H.
    assert (Hs : map shp (replace_nth ws i w') = map shp ws).
    { apply (map_shp_replace _ _ w); [exact Hn|].
      change w' with (fst (w', m)). rewrite <- Ha. apply shp_allocate. }
    destruct (negb (Qle_bool m 0)).
    + destruct (Qle_bool (rem - m) 0).
      * injection H as <- _ _. exact Hs.
      * destruct (alloc_workers o day idx (replace_nth ws i w') (rem - m))
          as [[ws2 r2] al2] eqn:Hr.
        injection H as <- _ _. rewrite (IH _ _ _ _ _ Hr). exact Hs.
    + rewrite (IH _ _ _ _ _ H). exact Hs.
Qed.

Lemma alloc_days_shape (o : Order) (days : list Z) :
  forall ws rem ws' r' al,
  alloc_days o days ws rem = (ws', r', al) -> map shp ws' = map shp ws.
Proof.
  induction days as [|d days IH]; intros ws rem ws' r' al H; simpl in H.
  - injection H as <- _ _. reflexivity.
  - destruct (Qle_bool rem 0); [injection H as <- _ _; reflexivity|].
    destruct (sort_workers ws d (eligible_from ws (code o) 0)) as [|j js] eqn:Hsort.
    + exact (IH _ _ _ _ _ H).
    + rewrite <- Hsort in H.
      destruct (alloc_workers o d _ ws rem) as [[ws1 r1] al1] eqn:H1.
      destruct (alloc_days o days ws1 r1) as [[ws2 r2] al2] eqn:H2.
      injection H as <- _ _.
      rewrite (IH _ _ _ _ _ H2). exact (alloc_workers_shape _ _ _ _ _ _ _ _ H1).
Qed.

Lemma schedule_orders_shape (os : list Order) (days : list Z) :
  forall ws ws' al, schedule_orders os days ws = (ws', al) -> map shp ws' = map shp ws.
Proof.
  induction os as [|o os IH]; intros ws ws' al H; simpl in H.
  - injection H as <- _. reflexivity.
  - destruct (schedule_order o days ws) as [ws1 al1] eqn:H1.
    destruct (schedule_orders os days ws1) as [ws2 al2] eqn:H2.
    injection H as <- _. rewrite (IH _ _ _ H2).
    unfold schedule_order in H1.
    destruct (Qle_bool (remaining_work_hours o) 0); [injection H1 as <- _; reflexivity|].
    destruct (alloc_days o days ws (remaining_work_hours o)) as [[ws3 r3] al3] eqn:H3.
    injection H1 as <- _. exact (alloc_days_shape _ _ _ _ _ _ _ H3).
Qed.

Lemma Qle_bool_false (a b : Q) : Qle_bool a b = false -> (b < a)%Q.
Proof.
  intro E. apply Qnot_le_lt. intro H. apply Qle_bool_iff in H. congruence.
Qed.

Lemma alloc_workers_ok (ws0 : list Worker) (days : list Z) (o : Order) (day : Z)
  (Hday : In day days) (idx : list nat) :
  forall ws rem ws' r' al,
  map shp ws = map shp ws0 ->
  (forall i, In i idx -> exists w0, nth_error ws0 i = Some w0 /\ eligible w0 (code o) = true) ->
  alloc_workers o day idx ws rem = (ws', r', al) ->
  Forall (fun a => order_code a = code o /\ alloc_ok ws0 days a) al.
Proof.
  induction idx as [|i idx IH]; intros ws rem ws' r' al Hs Hidx H; cbn [alloc_workers] in H.
  - injection H as _ _ <-. constructor.
  - destruct (nth_error ws i) as [w|] eqn:Hn; [|injection H as _ _ <-; constructor].
    destruct (allocate_hours w day rem) as [w' m] eqn:Ha.
    cbv beta iota zeta in H.
    assert (Hs' : map shp (replace_nth ws i w') = map shp ws0).
    { rewrite <- Hs. apply (map_shp_replace _ _ w); [exact Hn|].
      change w' with (fst (w', m)). rewrite <- Ha. apply shp_allocate. }
    assert (Hidx' : forall j, In j idx ->
              exists w0, nth_error ws0 j = Some w0 /\ eligible w0 (code o) = true)
      by (intros j Hj; apply Hidx; right; exact Hj).
    assert (Hw : exists w0, In w0 ws0 /\ id w0 = id w /\ eligible w0 (code o) = true).
    { destruct (Hidx i (or_introl eq_refl)) as [w0 [Hn0 He0]].
      destruct (shp_nth _ _ _ _ Hs Hn) as [w1 [Hn1 Hsh]].
      rewrite Hn0 in Hn1. injection Hn1 as <-.
      exists w0. split; [eapply nth_error_In; eauto|].
      split; [unfold shp in Hsh; injection Hsh; auto|exact He0]. }
    destruct (negb (Qle_bool m 0)) eqn:Hpos.
    + assert (Hm : (0 < m)%Q).
      { apply Qle_bool_false. destruct (Qle_bool m 0); [discriminate|reflexivity]. }
      assert (Ha_ok : order_code (mkAllocation (code o) (id w) day m false) = code o /\
                      alloc_ok ws0 days (mkAllocation (code o) (id w) day m false)).
      { split; [reflexivity|]. split; [exact Hm|]. split; [exact Hday|]. exact Hw. }
      destruct (Qle_bool (rem - m) 0).
      * injection H as _ _ <-. constructor; [exact Ha_ok|constructor].
      * destruct (alloc_workers o day idx (replace_nth ws i w') (rem - m))
          as [[ws2 r2] al2] eqn:Hr.
        injection H as _ _ <-. constructor; [exact Ha_ok|].
        exact (IH _ _ _ _ _ Hs' Hidx' Hr).
    + exact (IH _ _ _ _ _ Hs' Hidx' H).
Qed.

Lemma alloc_days_ok (ws0 : list Worker) (all_days : list Z) (o : Order) (days : list Z) :
  incl days all_days ->
  forall ws rem ws' r' al,
  map shp ws = map shp ws0 ->
  alloc_days o days ws rem = (ws', r', al) ->
  Forall (fun a => order_code a = code o /\ alloc_ok ws0 all_days a) al.
Proof.
  induction days as [|d days IH]; intros Hincl ws rem ws' r' al Hs H;
    cbn [alloc_days] in H.
  - injection H as _ _ <-. constructor.
  - assert (Hincl' : incl days all_days) by (intros x Hx; apply Hincl; right; exact Hx).
    destruct (Qle_bool rem 0); [injection H as _ _ <-; constructor|].
    destruct (sort_workers ws d (eligible_from ws (code o) 0)) as [|j js] eqn:Hsort.
    + exact (IH Hincl' _ _ _ _ _ Hs H).
    + rewrite <- Hsort in H.
      destruct (alloc_workers o d _ ws rem) as [[ws1 r1] al1] eqn:H1.
      destruct (alloc_days o days ws1 r1) as [[ws2 r2] al2] eqn:H2.
      injection H as _ _ <-. apply Forall_app. split.
      * refine (alloc_workers_ok ws0 all_days o d (Hincl d (or_introl eq_refl)) _
                  _ _ _ _ _ Hs _ H1).
        intros i Hi. destruct (sort_workers_eligible _ _ _ _ Hi) as [w [Hn He]].
        destruct (shp_nth _ _ _ _ Hs Hn) as [w0 [Hn0 Hsh]].
        exists w0. split; [exact Hn0|]. rewrite (eligible_shp _ _ _ Hsh). exact He.
      * refine (IH Hincl' _ _ _ _ _ _ H2).
        rewrite (alloc_workers_shape _ _ _ _ _ _ _ _ H1). exact Hs.
Qed.

Lemma schedule_orders_ok (ws0 : list Worker) (days : list Z) (os : list Order) :
  forall ws ws' al,
  map shp ws = map shp ws0 ->
  schedule_orders os days ws = (ws', al) ->
  Forall (alloc_ok ws0 days) al.
Proof.
  induction os as [|o os IH]; intros ws ws' al Hs H; cbn [schedule_orders] in H.
  - injection H as _ <-. constructor.
  - destruct (schedule_order o days ws) as [ws1 al1] eqn:H1.
    destruct (schedule_orders os days ws1) as [ws2 al2] eqn:H2.
    injection H as _ <-. apply Forall_app. split.
    + unfold schedule_order in H1.
      destruct (Qle_bool (remaining_work_hours o) 0); [injection H1 as _ <-; constructor|].
      destruct (alloc_days o days ws (remaining_work_hours o)) as [[ws3 r3] al3] eqn:H3.
      injection H1 as _ <-.
      eapply Forall_impl; [|exact (alloc_days_ok ws0 days o days (incl_refl _) _ _ _ _ _ Hs H3)].
      intros a [_ Ha]. exact Ha.
    + refine (IH _ _ _ _ H2).
      rewrite <- Hs. apply (schedule_orders_shape [o] days ws ws1 (al1 ++ [])).
      cbn [schedule_orders]. rewrite H1. reflexivity.
Qed.

Lemma work_dates_range (start_date days_ahead d : Z) :
  In d (work_dates start_date days_ahead) ->
  start_date <= d <= start_date + days_ahead - 1.
Proof.
  unfold work_dates. rewrite in_map_iff. intros [i [<- Hi]].
  apply in_seq in Hi. lia.
Qed.

Lemma map_shp_reset (ws : list Worker) :
  map shp (map (fun w => set_availability w []) ws) = map shp ws.
Proof. rewrite map_map. reflexivity. Qed.

Lemma create_schedule_inv (s : Scheduler) (orders : list Order) (start_date days_ahead : Z)
  (s' : Scheduler) (orders' : list Order) :
  create_schedule s orders start_date days_ahead = Ok (s', orders') ->
  exists prioritized ws,
    prioritize_orders s orders start_date = Ok (orders', prioritized) /\
    schedule_orders prioritized (work_dates start_date days_ahead)
      (map (fun w => set_availability w []) (workers s)) = (ws, schedule s') /\
    workers s' = ws.
Proof.
  unfold create_schedule. intro H.
  destruct (prioritize_orders s orders start_date) as [[o1 p1]|e] eqn:Hp;
    cbn [rbind] in H; [|discriminate].
  destruct (schedule_orders p1 _ _) as [ws al] eqn:Hso.
  injection H as <- <-. exists p1, ws. auto.
Qed.

(** C10: every allocation of a schedule built by [create_schedule] has
    positive hours, a date in [[start_date, start_date + days_ahead - 1]],
    and a worker of the scheduler whose skill set is empty or contains the
    allocation's order code. *)
Theorem create_schedule_allocations_well_formed (s : Scheduler) (orders : list Order)
  (start_date days_ahead : Z) (s' : Scheduler) (orders' : list Order)
  (H : create_schedule s orders start_date days_ahead = Ok (s', orders')) :
  Forall (fun a =>
    (0 < hours a)%Q /\
    start_date <= allocation_date a <= start_date + days_ahead - 1 /\
    exists w, In w (workers s) /\ id w = worker_id a /\
              (skills w = [] \/ In (order_code a) (skills w)))
    (schedule s').
Proof.
  destruct (create_schedule_inv _ _ _ _ _ _ H) as [p [ws [_ [Hso _]]]].
  pose proof (schedule_orders_ok _ _ _ _ _ _ eq_refl Hso) as Hok.
  eapply Forall_impl; [|exact Hok].
  intros a [Hh [Hd [w0 [Hin [Hid He]]]]].
  split; [exact Hh|]. split; [exact (work_dates_range _ _ _ Hd)|].
  apply in_map_iff in Hin. destruct Hin as [w [<- Hw]].
  exists w. split; [exact Hw|]. split; [exact Hid|].
  apply eligible_spec. exact He.
Qed.

(** Witness of C10: the repository's test run. *)
Lemma create_schedule_allocations_well_formed_witness :
  create_schedule test_scheduler [order_five_hours] 0 3 =
    Ok (run_schedule test_scheduler [order_five_hours] 0 3) /\
  Forall (fun a =>
    (0 < hours a)%Q /\ 0 <= allocation_date a <= 0 + 3 - 1 /\
    exists w, In w (workers test_scheduler) /\ id w = worker_id a /\
              (skills w = [] \/ In (order_code a) (skills w)))
    (schedule (fst (run_schedule test_scheduler [order_five_hours] 0 3))).
Proof.
  split; [vm_compute; reflexivity|].
  apply (create_schedule_allocations_well_formed test_scheduler [order_five_hours] 0 3
           _ (snd (run_schedule test_scheduler [order_five_hours] 0 3))).
  vm_compute. reflexivity.
Defined.

Lemma sum_hours_app (l1 l2 : list Allocation) :
  (sum_hours (l1 ++ l2) == sum_hours l1 + sum_hours l2)%Q.
Proof.
  induction l1 as [|a l1 IH]; simpl.
  - lra.
  - unfold sum_hours in *. simpl. rewrite IH. lra.
Qed.

Lemma allocate_hours_snd (w : Worker) (d : Z) (h : Q) :
  snd (allocate_hours w d h) = py_min (get_available_hours w d) h.
Proof. reflexivity. Qed.

Lemma alloc_workers_budget (o : Order) (day : Z) (idx : list nat) :
  forall ws rem ws' r' al,
  alloc_workers o day idx ws rem = (ws', r', al) ->
  (sum_hours al + r' == rem)%Q /\ ((0 <= rem)%Q -> (0 <= r')%Q) /\
  Forall (fun a => order_code a = code o) al.
Proof.
  induction idx as [|i idx IH]; intros ws rem ws' r' al H; cbn [alloc_workers] in H.
  - injection H as _ <- <-. unfold sum_hours; simpl. split; [lra|]. split; [auto|constructor].
  - destruct (nth_error ws i) as [w|] eqn:Hn.
    2:{ injection H as _ <- <-. unfold sum_hours; simpl. split; [lra|]. split; [auto|constructor]. }
    destruct (allocate_hours w day rem) as [w' m] eqn:Ha.
    assert (Hm : (m <= rem)%Q).
    { replace m with (snd (allocate_hours w day rem)) by (rewrite Ha; reflexivity).
      rewrite allocate_hours_snd. apply py_min_le_r. }
    cbv beta iota zeta in H.
    destruct (negb (Qle_bool m 0)).
    + destruct (Qle_bool (rem - m) 0).
      * injection H as _ <- <-. unfold sum_hours; simpl.
        split; [lra|]. split; [intros; lra|]. constructor; [reflexivity|constructor].
      * destruct (alloc_workers o day idx (replace_nth ws i w') (rem - m))
          as [[ws2 r2] al2] eqn:Hr.
        injection H as _ <- <-.
        destruct (IH _ _ _ _ _ Hr) as [Hsum [Hpos Hc]].
        unfold sum_hours in *; simpl.
        split; [lra|]. split; [intros; apply Hpos; lra|]. constructor; [reflexivity|exact Hc].
    + exact (IH _ _ _ _ _ H).
Qed.

Lemma alloc_days_budget (o : Order) (days : list Z) :
  forall ws rem ws' r' al,
  alloc_days o days ws rem = (ws', r', al) ->
  (sum_hours al + r' == rem)%Q /\ ((0 <= rem)%Q -> (0 <= r')%Q) /\
  Forall (fun a => order_code a = code o) al.
Proof.
  induction days as [|d days IH]; intros ws rem ws' r' al H; cbn [alloc_days] in H.
  - injection H as _ <- <-. unfold sum_hours; simpl. split; [lra|]. split; [auto|constructor].
  - destruct (Qle_bool rem 0).
    { injection H as _ <- <-. unfold sum_hours; simpl. split; [lra|]. split; [auto|constructor]. }
    destruct (sort_workers ws d (eligible_from ws (code o) 0)) as [|j js] eqn:Hsort.
    + exact (IH _ _ _ _ _ H).
    + rewrite <- Hsort in H.
      destruct (alloc_workers o d _ ws rem) as [[ws1 r1] al1] eqn:H1.
      destruct (alloc_days o days ws1 r1) as [[ws2 r2] al2] eqn:H2.
      injection H as _ <- <-.
      destruct (alloc_workers_budget _ _ _ _ _ _ _ _ H1) as [S1 [P1 C1]].
      destruct (IH _ _ _ _ _ H2) as [S2 [P2 C2]].
      rewrite sum_hours_app. split; [lra|]. split; [intros; auto|].
      apply Forall_app. auto.
Qed.

Lemma schedule_order_budget (o : Order) (days : list Z) (ws ws' : list Worker)
  (al : list Allocation) :
  schedule_order o days ws = (ws', al) ->
  Forall (fun a => order_code a = code o) al /\
  ((remaining_work_hours o <= 0)%Q -> al = []) /\
  ((0 < remaining_work_hours o)%Q -> (sum_hours al <= remaining_work_hours o)%Q).
Proof.
  unfold schedule_order. intro H.
  destruct (Qle_bool (remaining_work_hours o) 0) eqn:E.
  - injection H as _ <-. split; [constructor|]. split; [auto|].
    apply Qle_bool_iff in E. intro. lra.
  - apply Qle_bool_false in E.
    destruct (alloc_days o days ws (remaining_work_hours o)) as [[ws1 r1] al1] eqn:H1.
    injection H as _ <-.
    destruct (alloc_days_budget _ _ _ _ _ _ _ H1) as [S1 [P1 C1]].
    split; [exact C1|]. split; [intro; lra|].
    intros _. assert (0 <= r1)%Q by (apply P1; lra). lra.
Qed.

Lemma schedule_orders_budget (days : list Z) (os : list Order) :
  forall ws ws' al,
  schedule_orders os days ws = (ws', al) ->
  exists chunks, al = List.concat chunks /\
    Forall2 (fun o ch =>
      Forall (fun a => order_code a = code o) ch /\
      ((remaining_work_hours o <= 0)%Q -> ch = []) /\
      ((0 < remaining_work_hours o)%Q -> (sum_hours ch <= remaining_work_hours o)%Q))
      os chunks.
Proof.
  induction os as [|o os IH]; intros ws ws' al H; cbn [schedule_orders] in H.
  - injection H as _ <-. exists []. split; [reflexivity|constructor].
  - destruct (schedule_order o days ws) as [ws1 al1] eqn:H1.
    destruct (schedule_orders os days ws1) as [ws2 al2] eqn:H2.
    injection H as _ <-.
    destruct (IH _ _ _ H2) as [chunks [-> Hf]].
    exists (al1 :: chunks). split; [reflexivity|].
    constructor; [exact (schedule_order_budget _ _ _ _ _ H1)|exact Hf].
Qed.

Lemma compute_all_remaining (c : PriorityCalculator) (os os' : list Order) (today : Z) :
  compute_all c os today = Ok os' ->
  map remaining_work_hours os' = map remaining_work_hours os.
Proof.
  revert os'. induction os as [|o os IH]; intros os' H; simpl in H.
  - injection H as <-. reflexivity.
  - destruct (compute_priority c o today) as [p|e]; simpl in H; [|discriminate].
    destruct (compute_all c os today) as [os1|e]; simpl in H; [|discriminate].
    injection H as <-. simpl. f_equal. apply IH. reflexivity.
Qed.

(** C4: a run of [create_schedule] leaves every order's
    [remaining_work_hours] as it was, and its schedule is the
    concatenation of one block of allocations per order (in the
    prioritized order, a permutation of the orders): the block of an order
    carries its code, is empty when [remaining_work_hours <= 0], and sums
    to at most [remaining_work_hours] otherwise. *)
Theorem create_schedule_order_budget (s : Scheduler) (orders : list Order)
  (start_date days_ahead : Z) (s' : Scheduler) (orders' : list Order)
  (H : create_schedule s orders start_date days_ahead = Ok (s', orders')) :
  map remaining_work_hours orders' = map remaining_work_hours orders /\
  exists prioritized chunks,
    Permutation prioritized orders' /\
    schedule s' = List.concat chunks /\
    Forall2 (fun o ch =>
      Forall (fun a => order_code a = code o) ch /\
      ((remaining_work_hours o <= 0)%Q -> ch = []) /\
      ((0 < remaining_work_hours o)%Q -> (sum_hours ch <= remaining_work_hours o)%Q))
      prioritized chunks.
Proof.
  destruct (create_schedule_inv _ _ _ _ _ _ H) as [p [ws [Hp [Hso _]]]].
  unfold prioritize_orders in Hp.
  destruct (compute_all (priority_calculator s) orders start_date) as [os1|e] eqn:Hc;
    cbn [rbind] in Hp; [|discriminate].
  injection Hp as <- <-.
  split; [exact (compute_all_remaining _ _ _ _ Hc)|].
  destruct (schedule_orders_budget _ _ _ _ _ Hso) as [chunks [Hcat Hf]].
  exists (sort_by order_key_le os1), chunks.
  split; [apply sort_by_perm|]. split; assumption.
Qed.

(** Witness of C4: the repository's test run. *)
Lemma create_schedule_order_budget_witness :
  create_schedule test_scheduler [order_five_hours] 0 3 =
    Ok (run_schedule test_scheduler [order_five_hours] 0 3) /\
  map remaining_work_hours (snd (run_schedule test_scheduler [order_five_hours] 0 3))
    = map remaining_work_hours [order_five_hours].
Proof.
  split; [vm_compute; reflexivity|].
  apply (create_schedule_order_budget test_scheduler [order_five_hours] 0 3
           (fst (run_schedule test_scheduler [order_five_hours] 0 3))
           (snd (run_schedule test_scheduler [order_five_hours] 0 3))).
  vm_compute. reflexivity.
Defined.

Lemma sum_wd_app (k d : Z) (l1 l2 : list Allocation) :
  (sum_wd k d (l1 ++ l2) == sum_wd k d l1 + sum_wd k d l2)%Q.
Proof.
  unfold sum_wd, get_day_schedule, get_worker_schedule.
  rewrite !filter_app. apply sum_hours_app.
Qed.

Lemma sum_wd_nil (k d : Z) : sum_wd k d [] = 0%Q.
Proof. reflexivity. Qed.

Lemma sum_wd_single (k d : Z) (c : string) (k' d' : Z) (m : Q) :
  (sum_wd k d [mkAllocation c k' d' m false] ==
   if (k' =? k) && (d' =? d) then m else 0)%Q.
Proof.
  unfold sum_wd, get_day_schedule, get_worker_schedule, sum_hours. simpl.
  destruct (k' =? k); simpl; [|lra].
  destruct (d' =? d); simpl; lra.
Qed.

Lemma get_allocate (w w' : Worker) (day : Z) (hq mq : Q) :
  allocate_hours w day hq = (w', mq) -> forall d,
  get_available_hours w' d =
  if d =? day then (get_available_hours w day - mq)%Q else get_available_hours w d.
Proof.
  intros Ha d. unfold allocate_hours in Ha. injection Ha as <- <-.
  unfold get_available_hours at 1. simpl.
  destruct (d =? day) eqn:E.
  - apply Z.eqb_eq in E. subst d. rewrite dict_get_set_same. reflexivity.
  - apply Z.eqb_neq in E. rewrite dict_get_set_other by congruence. reflexivity.
Qed.

Lemma nodup_ids_distinct (ws : list Worker) (i j : nat) (w w' : Worker) :
  NoDup (map id ws) -> nth_error ws i = Some w -> nth_error ws j = Some w' ->
  i <> j -> id w <> id w'.
Proof.
  intros Hnd Hi Hj Hij Heq. apply Hij.
  apply (proj1 (NoDup_nth_error _) Hnd).
  - rewrite length_map. apply nth_error_Some. congruence.
  - rewrite !nth_error_map, Hi, Hj. simpl. congruence.
Qed.

Lemma alloc_step_inv (ws : list Worker) (al : list Allocation) (i : nat) (w w' : Worker)
  (day : Z) (rem m : Q) (c : string) :
  capacity_inv ws al -> NoDup (map id ws) -> nth_error ws i = Some w -> (0 < rem)%Q ->
  allocate_hours w day rem = (w', m) ->
  capacity_inv (replace_nth ws i w')
    (al ++ if negb (Qle_bool m 0) then [mkAllocation c (id w) day m false] else []).
Proof.
  intros Hinv Hnd Hn Hrem Ha j wj Hj d.
  assert (Hm : m = py_min (get_available_hours w day) rem).
  { replace m with (snd (allocate_hours w day rem)) by (rewrite Ha; reflexivity).
    apply allocate_hours_snd. }
  assert (Hav : (0 <= get_available_hours w day)%Q) by exact (proj1 (Hinv i w Hn day)).
  assert (Hm1 : (m <= get_available_hours w day)%Q) by (rewrite Hm; apply py_min_le_l).
  assert (Hm0 : (0 <= m)%Q).
  { rewrite Hm. destruct (py_min_cases (get_available_hours w day) rem) as [E|E];
      rewrite E; lra. }
  assert (Hsh : shp w' = shp w).
  { change w' with (fst (w', m)). rewrite <- Ha. apply shp_allocate. }
  unfold shp in Hsh. injection Hsh as Hid Hhpd _.
  rewrite nth_error_replace_nth in Hj.
  destruct (Nat.eqb i j) eqn:Eij.
  - apply Nat.eqb_eq in Eij. subst j. rewrite Hn in Hj. injection Hj as <-.
    rewrite (get_allocate w w' day rem m Ha d), Hid, Hhpd.
    destruct (Hinv i w Hn d) as [H0 H1].
    destruct (negb (Qle_bool m 0)) eqn:Epos.
    + rewrite sum_wd_app, sum_wd_single, Z.eqb_refl. simpl.
      destruct (day =? d) eqn:E1; destruct (d =? day) eqn:E2;
        try (apply Z.eqb_eq in E1; apply Z.eqb_neq in E2; congruence);
        try (apply Z.eqb_eq in E2; apply Z.eqb_neq in E1; congruence).
      * apply Z.eqb_eq in E1. subst d. split; lra.
      * split; lra.
    + rewrite app_nil_r.
      assert (m == 0)%Q.
      { apply Bool.negb_false_iff, Qle_bool_iff in Epos. lra. }
      destruct (d =? day) eqn:E2.
      * apply Z.eqb_eq in E2. subst d. split; lra.
      * split; lra.
  - apply Nat.eqb_neq in Eij.
    destruct (Hinv j wj Hj d) as [H0 H1].
    pose proof (nodup_ids_distinct _ _ _ _ _ Hnd Hn Hj Eij) as Hne.
    split; [exact H0|].
    destruct (negb (Qle_bool m 0)).
    + rewrite sum_wd_app, sum_wd_single.
      apply Z.eqb_neq in Hne. rewrite Hne. simpl. lra.
    + rewrite app_nil_r. exact H1.
Qed.

Lemma map_id_shp (ws : list Worker) :
  map id ws = map (fun p => fst (fst p)) (map shp ws).
Proof. rewrite map_map. reflexivity. Qed.

Lemma alloc_workers_inv (o : Order) (day : Z) (idx : list nat) :
  forall ws rem al ws' r' al',
  capacity_inv ws al -> NoDup (map id ws) -> (0 < rem)%Q ->
  alloc_workers o day idx ws rem = (ws', r', al') ->
  capacity_inv ws' (al ++ al').
Proof.
  induction idx as [|i idx IH]; intros ws rem al ws' r' al' Hinv Hnd Hrem H;
    cbn [alloc_workers] in H.
  - injection H as <- _ <-. rewrite app_nil_r. exact Hinv.
  - destruct (nth_error ws i) as [w|] eqn:Hn.
    2:{ injection H as <- _ <-. rewrite app_nil_r. exact Hinv. }
    destruct (allocate_hours w day rem) as [w' m] eqn:Ha.
    pose proof (alloc_step_inv ws al i w w' day rem m (code o) Hinv Hnd Hn Hrem Ha) as Hstep.
    assert (Hnd' : NoDup (map id (replace_nth ws i w'))).
    { rewrite map_id_shp, (map_shp_replace _ _ w); [rewrite <- map_id_shp; exact Hnd|exact Hn|].
      change w' with (fst (w', m)). rewrite <- Ha. apply shp_allocate. }
    cbv beta iota zeta in H.
    destruct (negb (Qle_bool m 0)).
    + destruct (Qle_bool (rem - m) 0) eqn:Er.
      * injection H as <- _ <-. exact Hstep.
      * destruct (alloc_workers o day idx (replace_nth ws i w') (rem - m))
          as [[ws2 r2] al2] eqn:Hr.
        injection H as <- _ <-.
        replace (al ++ mkAllocation (code o) (id w) day m false :: al2)
          with ((al ++ [mkAllocation (code o) (id w) day m false]) ++ al2)
          by (rewrite <- app_assoc; reflexivity).
        apply (IH _ _ _ _ _ _ Hstep Hnd' (Qle_bool_false _ _ Er) Hr).
    + rewrite app_nil_r in Hstep. exact (IH _ _ _ _ _ _ Hstep Hnd' Hrem H).
Qed.

Lemma alloc_days_inv (o : Order) (days : list Z) :
  forall ws rem al ws' r' al',
  capacity_inv ws al -> NoDup (map id ws) ->
  alloc_days o days ws rem = (ws', r', al') ->
  capacity_inv ws' (al ++ al').
Proof.
  induction days as [|d days IH]; intros ws rem al ws' r' al' Hinv Hnd H;
    cbn [alloc_days] in H.
  - injection H as <- _ <-. rewrite app_nil_r. exact Hinv.
  - destruct (Qle_bool rem 0) eqn:Er.
    { injection H as <- _ <-. rewrite app_nil_r. exact Hinv. }
    destruct (sort_workers ws d (eligible_from ws (code o) 0)) as [|j js] eqn:Hsort.
    + exact (IH _ _ _ _ _ _ Hinv Hnd H).
    + rewrite <- Hsort in H.
      destruct (alloc_workers o d _ ws rem) as [[ws1 r1] al1] eqn:H1.
      destruct (alloc_days o days ws1 r1) as [[ws2 r2] al2] eqn:H2.
      injection H as <- _ <-.
      pose proof (alloc_workers_inv _ _ _ _ _ _ _ _ _ Hinv Hnd (Qle_bool_false _ _ Er) H1)
        as Hinv1.
      assert (Hnd1 : NoDup (map id ws1)).
      { rewrite map_id_shp, (alloc_workers_shape _ _ _ _ _ _ _ _ H1), <- map_id_shp.
        exact Hnd. }
      rewrite app_assoc. exact (IH _ _ _ _ _ _ Hinv1 Hnd1 H2).
Qed.

Lemma schedule_orders_inv (days : list Z) (os : list Order) :
  forall ws al ws' al',
  capacity_inv ws al -> NoDup (map id ws) ->
  schedule_orders os days ws = (ws', al') ->
  capacity_inv ws' (al ++ al').
Proof.
  induction os as [|o os IH]; intros ws al ws' al' Hinv Hnd H; cbn [schedule_orders] in H.
  - injection H as <- <-. rewrite app_nil_r. exact Hinv.
  - destruct (schedule_order o days ws) as [ws1 al1] eqn:H1.
    destruct (schedule_orders os days ws1) as [ws2 al2] eqn:H2.
    injection H as <- <-.
    assert (Hinv1 : capacity_inv ws1 (al ++ al1)).
    { unfold schedule_order in H1.
      destruct (Qle_bool (remaining_work_hours o) 0).
      - injection H1 as <- <-. rewrite app_nil_r. exact Hinv.
      - destruct (alloc_days o days ws (remaining_work_hours o)) as [[ws3 r3] al3] eqn:H3.
        injection H1 as <- <-. exact (alloc_days_inv _ _ _ _ _ _ _ _ Hinv Hnd H3). }
    assert (Hnd1 : NoDup (map id ws1)).
    { rewrite map_id_shp, (schedule_orders_shape [o] days ws ws1 (al1 ++ [])), <- map_id_shp.
      - exact Hnd.
      - cbn [schedule_orders]. rewrite H1. reflexivity. }
    rewrite app_assoc. exact (IH _ _ _ _ Hinv1 Hnd1 H2).
Qed.

Lemma capacity_inv_reset (ws : list Worker) :
  Forall (fun w => (0 <= hours_per_day w)%Q) ws ->
  capacity_inv (map (fun w => set_availability w []) ws) [].
Proof.
  intros Hf i w Hn d.
  rewrite nth_error_map in Hn.
  destruct (nth_error ws i) as [w0|] eqn:Hn0; [|discriminate].
  injection Hn as <-.
  pose proof (proj1 (Forall_forall _ _) Hf w0 (nth_error_In _ _ Hn0)) as Hp.
  unfold get_available_hours. cbn [dict_get set_availability availability hours_per_day].
  rewrite sum_wd_nil. cbv beta in Hp. split; lra.
Qed.

(** C1: for a scheduler whose workers have distinct ids and non-negative
    nominal hours, in the schedule built by [create_schedule] the hours
    allocated to a worker on any date sum to at most its [hours_per_day];
    and [allocate_hours], which makes every allocation, never grants more
    than the worker's availability for the day at that moment. *)
Theorem create_schedule_capacity (s : Scheduler) (orders : list Order)
  (start_date days_ahead : Z) (s' : Scheduler) (orders' : list Order)
  (H : create_schedule s orders start_date days_ahead = Ok (s', orders'))
  (Hids : NoDup (map id (workers s)))
  (Hhpd : Forall (fun w => (0 <= hours_per_day w)%Q) (workers s)) :
  (forall w d, In w (workers s) ->
     (sum_hours (get_day_schedule (get_worker_schedule (schedule s') (id w)) d)
        <= hours_per_day w)%Q) /\
  (forall w d h, (snd (allocate_hours w d h) <= get_available_hours w d)%Q).
Proof.
  split.
  2:{ intros w d h. rewrite allocate_hours_snd. apply py_min_le_l. }
  intros w d Hin.
  destruct (create_schedule_inv _ _ _ _ _ _ H) as [p [ws [_ [Hso _]]]].
  set (ws0 := map (fun w => set_availability w []) (workers s)) in Hso.
  assert (Hnd0 : NoDup (map id ws0)).
  { unfold ws0. rewrite map_id_shp, map_shp_reset, <- map_id_shp. exact Hids. }
  pose proof (schedule_orders_inv _ _ _ _ _ _ (capacity_inv_reset _ Hhpd) Hnd0 Hso) as Hinv.
  simpl in Hinv.
  apply In_nth_error in Hin. destruct Hin as [i Hi].
  assert (Hi0 : nth_error ws0 i = Some (set_availability w [])).
  { unfold ws0. rewrite nth_error_map, Hi. reflexivity. }
  assert (Hshape : map shp ws0 = map shp ws)
    by (symmetry; exact (schedule_orders_shape _ _ _ _ _ Hso)).
  destruct (shp_nth _ _ _ _ Hshape Hi0) as [wf [Hf Hsh]].
  destruct (Hinv i wf Hf d) as [H0 H1].
  unfold shp in Hsh. simpl in Hsh. injection Hsh as Hid Hhp _.
  unfold sum_wd in H1. rewrite Hid, Hhp in H1. lra.
Qed.

(** Witness of C1: the repository's test run. *)
Lemma create_schedule_capacity_witness :
  create_schedule test_scheduler [order_five_hours] 0 3 =
    Ok (run_schedule test_scheduler [order_five_hours] 0 3) /\
  NoDup (map id (workers test_scheduler)) /\
  (forall w d, In w (workers test_scheduler) ->
     (sum_hours (get_day_schedule (get_worker_schedule
        (schedule (fst (run_schedule test_scheduler [order_five_hours] 0 3))) (id w)) d)
        <= hours_per_day w)%Q).
Proof.
  split; [vm_compute; reflexivity|].
  split; [repeat constructor; simpl; tauto|].
  apply (create_schedule_capacity test_scheduler [order_five_hours] 0 3
           (fst (run_schedule test_scheduler [order_five_hours] 0 3))
           (snd (run_schedule test_scheduler [order_five_hours] 0 3))).
  - vm_compute. reflexivity.
  - repeat constructor; simpl; tauto.
  - repeat constructor. apply Qle_bool_iff. reflexivity.
Defined.

(* ------------------------------------------------------------------ *)
(** ** Events and the agents' handlers *)

Lemma dict_get_combine_notin {V} (ks : list string) (vs : list V) (n : string) :
  ~ In n ks -> dict_get String.eqb (combine ks vs) n = None.
Proof.
  revert vs; induction ks as [|k ks IH]; intros vs Hn; [reflexivity|].
  destruct vs as [|v vs]; [reflexivity|]. cbn.
  destruct (String.eqb_spec k n) as [->|Hne].
  - exfalso; apply Hn; left; reflexivity.
  - apply IH. intros Hin; apply Hn; right; exact Hin.
Qed.

Lemma new_event_no_attr ty params kw e n :
  new_event ty params kw = Ok e -> ~ In n (map fst params) ->
  getattr e n = Err AttributeError.
Proof.
  unfold new_event, rbind. destruct (bind_args params kw); intros H Hn;
    [|discriminate].
  injection H as <-. unfold getattr. cbn.
  rewrite dict_get_combine_notin by exact Hn. reflexivity.
Qed.

Ltac no_doc_number :=
  intros; eapply new_event_no_attr; [eassumption|];
  cbn; intros Hin; repeat (destruct Hin as [Hin|Hin]; [discriminate Hin|]); exact Hin.

Lemma OrderUpdated_no_doc_number kw e :
  OrderUpdated_new kw = Ok e -> getattr e "doc_number" = Err AttributeError.
Proof. no_doc_number. Qed.

Lemma PriorityChange_no_doc_number kw e :
  PriorityChange_new kw = Ok e -> getattr e "doc_number" = Err AttributeError.
Proof. no_doc_number. Qed.

Lemma ProgressUpdate_no_doc_number kw e :
  ProgressUpdate_new kw = Ok e -> getattr e "doc_number" = Err AttributeError.
Proof. no_doc_number. Qed.

Lemma BidRequest_no_doc_number kw e :
  BidRequest_new kw = Ok e -> getattr e "doc_number" = Err AttributeError.
Proof. no_doc_number. Qed.

Lemma BidResponse_no_doc_number kw e :
  BidResponse_new kw = Ok e -> getattr e "doc_number" = Err AttributeError.
Proof. no_doc_number. Qed.

Lemma with_known_order_raises e body st :
  getattr e "doc_number" = Err AttributeError ->
  with_known_order e body st = (Err AttributeError, st).
Proof.
  intros H. unfold with_known_order, se_bind, se_lift. rewrite H. reflexivity.
Qed.

(* ------------------------------------------------------------------ *)
(** ** Allocations, delays and the coordinator *)

(** C5 (code bug). An [Allocation] records the order's product code
    ([order_code]), not its document number. Scheduling two orders with
    document numbers "1" and "2" and the same code "X" gives two equal
    allocations, and querying the schedule by either order returns both. *)
Theorem create_schedule_allocations_lack_doc_number :
  exists s' orders',
    create_schedule test_scheduler shared_code_orders 0 3 = Ok (s', orders') /\
    map doc_number orders' = ["1"; "2"] /\
    schedule s' = [mkAllocation "X" 1 0 2 false; mkAllocation "X" 1 0 2 false] /\
    Forall (fun o => get_order_schedule (schedule s') (code o) = schedule s') orders'.
Proof.
  exists (fst (run_schedule test_scheduler shared_code_orders 0 3)),
         (snd (run_schedule test_scheduler shared_code_orders 0 3)).
  vm_compute. repeat split; repeat constructor.
Qed.

(** C6 (code bug). [check_delays] gathers allocations and keys the delay map
    by product code. Active orders "late" (document "1", one work-hour, due
    day -1) and "rush" (document "2", eight work-hours, override 5, due day
    5) share the code "X"; with one 8-hour worker and the one-day window
    starting at day 0, the only allocation has 8 hours, more than the one
    hour "late" needs, so it is not an allocation of "late". Still the delay
    map records "X" with the delay of "late", 1 day. *)
Theorem check_delays_flags_unallocated_order :
  exists s' orders',
    create_schedule test_scheduler overdue_shared_orders 0 1 = Ok (s', orders') /\
    map doc_number orders' = ["1"; "2"] /\
    map remaining_work_hours orders' = [1%Q; 8%Q] /\
    map (fun o => dt_day (due_date o)) orders' = [-1; 5] /\
    schedule s' = [mkAllocation "X" 1 0 8 false] /\
    check_delays s' orders' = [("X", 1)].
Proof.
  exists (fst (run_schedule test_scheduler overdue_shared_orders 0 1)),
         (snd (run_schedule test_scheduler overdue_shared_orders 0 1)).
  vm_compute. repeat split.
Qed.

(** C7 (code bug). [handle_bid_response] reads [event.doc_number], which no
    [BidResponse] has: on every BidResponse event it raises
    [AttributeError] and leaves the coordinator's state unchanged, so the
    response is never collected and no round is ever closed. *)
Theorem handle_bid_response_raises (kw : list (string * Value)) (e : Event)
  (st : PlannerAgent) (He : BidResponse_new kw = Ok e) :
  handle_bid_response e st = (Err AttributeError, st).
Proof.
  unfold handle_bid_response, se_bind, se_lift.
  rewrite (BidResponse_no_doc_number kw e He). reflexivity.
Qed.

Lemma handle_bid_response_raises_witness :
  BidResponse_new kw_bid_response =
    Ok (event_or BID_RESPONSE (BidResponse_new kw_bid_response)) /\
  handle_bid_response (event_or BID_RESPONSE (BidResponse_new kw_bid_response))
    bidding_planner = (Err AttributeError, bidding_planner).
Proof.
  split; [vm_compute; reflexivity|].
  apply (handle_bid_response_raises kw_bid_response). vm_compute. reflexivity.
Defined.

(** C8 (code bug). [start_allocation_process] builds its BidRequest with a
    [doc_number] keyword that [BidRequest.__init__] does not accept: for an
    order with positive remaining work it raises [TypeError] after opening
    the round, and no request is queued. No BidRequest and no BidResponse
    event has a [doc_number] attribute. *)
Theorem bid_events_lack_doc_number (o : Order) (st : PlannerAgent)
  (Hpos : (0 < remaining_work_hours o)%Q) :
  start_allocation_process o st =
    (Err TypeError,
     set_active_bids st (dict_set String.eqb (active_bids st) (doc_number o) [])) /\
  (forall kw e, BidRequest_new kw = Ok e -> getattr e "doc_number" = Err AttributeError) /\
  (forall kw e, BidResponse_new kw = Ok e -> getattr e "doc_number" = Err AttributeError).
Proof.
  split; [|split; [exact BidRequest_no_doc_number | exact BidResponse_no_doc_number]].
  unfold start_allocation_process.
  destruct (Qle_bool (remaining_work_hours o) 0) eqn:Hle.
  - apply Qle_bool_iff in Hle. exfalso. apply (Qlt_not_le _ _ Hpos Hle).
  - reflexivity.
Qed.

Lemma bid_events_lack_doc_number_witness :
  (0 < remaining_work_hours order_five_hours)%Q /\
  start_allocation_process order_five_hours empty_planner =
    (Err TypeError, set_active_bids empty_planner [("1", [])]).
Proof.
  assert (H : (0 < remaining_work_hours order_five_hours)%Q) by (vm_compute; reflexivity).
  split; [exact H|].
  exact (proj1 (bid_events_lack_doc_number order_five_hours empty_planner H)).
Defined.

(** C9 (code bug). The handlers of OrderUpdated, PriorityChange and
    ProgressUpdate read [event.doc_number] before looking the order up, and
    none of these events has that attribute: on every such event, for an
    unknown order as for a known one, the handler raises [AttributeError]
    (leaving the state unchanged) instead of returning. *)
Theorem planner_handlers_raise_before_lookup (kw : list (string * Value)) (e : Event)
  (st : PlannerAgent) (today : Z) :
  (OrderUpdated_new kw = Ok e ->
   handle_order_updated e today st = (Err AttributeError, st)) /\
  (PriorityChange_new kw = Ok e ->
   handle_priority_change e today st = (Err AttributeError, st)) /\
  (ProgressUpdate_new kw = Ok e ->
   handle_progress_update e today st = (Err AttributeError, st)).
Proof.
  split; [|split]; intros H.
  - unfold handle_order_updated. apply with_known_order_raises.
    exact (OrderUpdated_no_doc_number kw e H).
  - unfold handle_priority_change. apply with_known_order_raises.
    exact (PriorityChange_no_doc_number kw e H).
  - unfold handle_progress_update. apply with_known_order_raises.
    exact (ProgressUpdate_no_doc_number kw e H).
Qed.

Lemma planner_handlers_raise_before_lookup_witness :
  handle_order_updated (event_or ORDER_UPDATED (OrderUpdated_new kw_order_updated))
    0 empty_planner = (Err AttributeError, empty_planner) /\
  handle_priority_change (event_or PRIORITY_CHANGE (PriorityChange_new kw_priority_change))
    0 empty_planner = (Err AttributeError, empty_planner) /\
  handle_progress_update (event_or PROGRESS_UPDATE (ProgressUpdate_new kw_progress_update))
    0 empty_planner = (Err AttributeError, empty_planner).
Proof.
  split; [|split].
  - apply (proj1 (planner_handlers_raise_before_lookup kw_order_updated _ empty_planner 0)).
    vm_compute. reflexivity.
  - apply (proj1 (proj2 (planner_handlers_raise_before_lookup
                           kw_priority_change _ empty_planner 0))).
    vm_compute. reflexivity.
  - apply (proj2 (proj2 (planner_handlers_raise_before_lookup
                           kw_progress_update _ empty_planner 0))).
    vm_compute. reflexivity.
Defined.

(* ------------------------------------------------------------------ *)
(** ** Further properties of PriorityCalculator and prioritize_orders *)

Lemma PriorityLevel_of_ok_value (v : Z) (p : PriorityLevel) :
  PriorityLevel_of v = Ok p -> value p = v.
Proof.
  unfold PriorityLevel_of.
  destruct v as [|[pv|pv|]|pv]; try discriminate;
    try (destruct pv as [pv|pv|]; try discriminate;
         try (destruct pv as [pv|pv|]; try discriminate));
    intro H; injection H as <-; reflexivity.
Qed.

Ltac split_leb :=
  repeat match goal with
         | H : context [?a <=? ?b] |- _ => destruct (Z.leb_spec a b)
         | |- context [?a <=? ?b] => destruct (Z.leb_spec a b)
         end.

(** Without a manual override, [compute_priority] either returns a level
    or raises [IndexError]; it raises exactly when fewer than three urgency
    thresholds are configured and the days left exceed every one of them. *)
Theorem compute_priority_index_error (c : PriorityCalculator) (o : Order) (today : Z)
  (Hnone : priority_manual o = None) :
  ((exists p, compute_priority c o today = Ok p) \/
   compute_priority c o today = Err IndexError) /\
  (compute_priority c o today = Err IndexError <->
   (List.length (urgency_thresholds c) < 3)%nat /\
   Forall (fun t => t < dt_day (due_date o) - today) (urgency_thresholds c)).
Proof.
  unfold compute_priority. rewrite Hnone.
  set (dl := dt_day (due_date o) - today).
  destruct (negb (Qle_bool (inject_Z (pending_qty o) * cycle_time o) (size_threshold c)));
  destruct (urgency_thresholds c) as [|t0 [|t1 [|t2 ts]]];
    cbn [py_index nth_error rbind]; split_leb; cbn [rbind];
    (split;
     [ first [ left; eexists; reflexivity | right; reflexivity ]
     | split;
       [ intro Hc; first [ discriminate Hc
                         | split; [cbn [List.length]; lia | repeat constructor; lia] ]
       | intros [Hl Hf];
         first [ reflexivity
               | exfalso; cbn [List.length] in Hl; lia
               | exfalso; repeat (match goal with
                                  | Hx : Forall _ (_ :: _) |- _ => inversion Hx; clear Hx; subst
                                  end); lia ] ] ]).
Qed.

(** Witness: with the single threshold [2], an order due in 5 days raises
    [IndexError]. *)
Lemma compute_priority_index_error_witness :
  compute_priority (mkPriorityCalculator [2] 8)
    (mkOrder "A" "test" 1 0 1 "1" (day_at 0) (day_at 5) None MEDIUM) 0 = Err IndexError.
Proof.
  apply (proj2 (proj2 (compute_priority_index_error (mkPriorityCalculator [2] 8)
    (mkOrder "A" "test" 1 0 1 "1" (day_at 0) (day_at 5) None MEDIUM) 0 eq_refl))).
  split; [cbn; lia | repeat constructor; cbn; lia].
Defined.

(** Without manual overrides, an order due no earlier and with no more
    remaining work-hours than another never gets a higher priority level
    (whatever the order of the thresholds). *)
Theorem compute_priority_monotone (c : PriorityCalculator) (o1 o2 : Order) (today : Z)
  (p1 p2 : PriorityLevel)
  (Hn1 : priority_manual o1 = None) (Hn2 : priority_manual o2 = None)
  (Hdue : dt_day (due_date o1) <= dt_day (due_date o2))
  (Hwork : (remaining_work_hours o2 <= remaining_work_hours o1)%Q)
  (H1 : compute_priority c o1 today = Ok p1) (H2 : compute_priority c o2 today = Ok p2) :
  value p2 <= value p1.
Proof.
  unfold compute_priority in H1, H2. rewrite Hn1 in H1. rewrite Hn2 in H2.
  unfold remaining_work_hours in Hwork.
  destruct (Qle_bool (inject_Z (pending_qty o1) * cycle_time o1) (size_threshold c)) eqn:Hs1;
  destruct (Qle_bool (inject_Z (pending_qty o2) * cycle_time o2) (size_threshold c)) eqn:Hs2;
  [ | exfalso; apply Qle_bool_iff in Hs1; apply Qle_bool_false in Hs2; lra | | ];
  destruct (urgency_thresholds c) as [|t0 [|t1 [|t2 ts]]];
    cbn [py_index nth_error rbind negb] in H1, H2; try discriminate;
    split_leb; cbn [rbind] in H1, H2; try discriminate;
    apply PriorityLevel_of_ok_value in H1; apply PriorityLevel_of_ok_value in H2; lia.
Qed.

Lemma compute_priority_monotone_witness :
  value MEDIUM_LOW <= value CRITICAL.
Proof.
  apply (compute_priority_monotone test_calc order_due_tomorrow
           (mkOrder "B" "test" 1 0 1 "2" (day_at 0) (day_at 20) None MEDIUM) 0
           CRITICAL MEDIUM_LOW eq_refl eq_refl).
  - cbn. lia.
  - apply Qle_bool_iff. vm_compute. reflexivity.
  - vm_compute. reflexivity.
  - vm_compute. reflexivity.
Defined.

Lemma order_key_le_total (a b : Order) :
  order_key_le a b = false -> order_key_le b a = true.
Proof.
  unfold order_key_le, datetime_ltb. intro Hk.
  destruct (Z.ltb_spec (5 - value (calculated_priority a)) (5 - value (calculated_priority b)));
  destruct (Z.ltb_spec (5 - value (calculated_priority b)) (5 - value (calculated_priority a)));
  destruct (Z.eqb_spec (5 - value (calculated_priority a)) (5 - value (calculated_priority b)));
  destruct (Z.eqb_spec (5 - value (calculated_priority b)) (5 - value (calculated_priority a)));
  destruct (Z.ltb_spec (dt_day (due_date b)) (dt_day (due_date a)));
  destruct (Z.ltb_spec (dt_day (due_date a)) (dt_day (due_date b)));
  destruct (Z.eqb_spec (dt_day (due_date b)) (dt_day (due_date a)));
  destruct (Z.eqb_spec (dt_day (due_date a)) (dt_day (due_date b)));
  destruct (Z.ltb_spec (dt_time (due_date b)) (dt_time (due_date a)));
  destruct (Z.ltb_spec (dt_time (due_date a)) (dt_time (due_date b)));
  cbn in *; try discriminate; try reflexivity; lia.
Qed.

Lemma insert_by_sorted {A} (R : A -> A -> bool)
  (Htot : forall a b, R a b = false -> R b a = true) (x : A) (l : list A) :
  Sorted (fun a b => R a b = true) l -> Sorted (fun a b => R a b = true) (insert_by R x l).
Proof.
  induction l as [|y l IH]; intro Hs; cbn.
  - repeat constructor.
  - apply Sorted_inv in Hs. destruct Hs as [Hs Hhd].
    destruct (R y x) eqn:Hyx.
    + constructor; [exact (IH Hs)|].
      destruct l as [|z l']; cbn; [constructor; exact Hyx|].
      destruct (R z x); constructor; [inversion Hhd; assumption | exact Hyx].
    + constructor; [constructor; assumption|]. constructor. apply Htot. exact Hyx.
Qed.

Lemma sort_by_sorted {A} (R : A -> A -> bool)
  (Htot : forall a b, R a b = false -> R b a = true) (l : list A) :
  Sorted (fun a b => R a b = true) (sort_by R l).
Proof.
  unfold sort_by.
  assert (Hg : forall acc, Sorted (fun a b => R a b = true) acc ->
               Sorted (fun a b => R a b = true) (fold_left (fun acc x => insert_by R x acc) l acc)).
  { induction l as [|x l IH]; intros acc Hacc; cbn; [exact Hacc|].
    apply IH. apply insert_by_sorted; assumption. }
  apply Hg. constructor.
Qed.

Lemma sorted_weaken {A} (R1 R2 : A -> A -> Prop) (l : list A) :
  (forall a b, R1 a b -> R2 a b) -> Sorted R1 l -> Sorted R2 l.
Proof.
  intros Himp Hs. induction Hs as [|x l Hs IH Hhd]; constructor; [exact IH|].
  destruct Hhd; constructor. apply Himp. assumption.
Qed.

Lemma compute_all_spec (c : PriorityCalculator) (os os' : list Order) (today : Z) :
  compute_all c os today = Ok os' ->
  Forall2 (fun o o' => exists p, compute_priority c o today = Ok p /\
                                 o' = set_calculated_priority o p) os os'.
Proof.
  revert os'; induction os as [|o os IH]; intros os' H; cbn in H.
  - injection H as <-. constructor.
  - destruct (compute_priority c o today) as [p|e] eqn:Hp; cbn [rbind] in H; [|discriminate].
    destruct (compute_all c os today) as [l|e] eqn:Hl; cbn [rbind] in H; [|discriminate].
    injection H as <-. constructor; [exists p; auto | exact (IH l eq_refl)].
Qed.

(** [prioritize_orders] writes each order's computed priority, and returns
    a permutation of the orders sorted by priority level (highest first)
    and, at equal level, by due date (earliest first). *)
Theorem prioritize_orders_sorted (s : Scheduler) (orders : list Order) (today : Z)
  (orders' prioritized : list Order)
  (H : prioritize_orders s orders today = Ok (orders', prioritized)) :
  Forall2 (fun o o' => exists p, compute_priority (priority_calculator s) o today = Ok p /\
                                 o' = set_calculated_priority o p) orders orders' /\
  Permutation prioritized orders' /\
  Sorted (fun a b => value (calculated_priority b) < value (calculated_priority a) \/
                     (value (calculated_priority a) = value (calculated_priority b) /\
                      datetime_ltb (due_date b) (due_date a) = false)) prioritized.
Proof.
  unfold prioritize_orders in H.
  destruct (compute_all (priority_calculator s) orders today) as [os|e] eqn:Hc;
    cbn [rbind] in H; [|discriminate].
  injection H as <- <-.
  split; [exact (compute_all_spec _ _ _ _ Hc)|].
  split; [apply sort_by_perm|].
  eapply sorted_weaken; [|apply sort_by_sorted; exact order_key_le_total].
  intros a b Hab. unfold order_key_le in Hab.
  apply orb_true_iff in Hab. destruct Hab as [Hab|Hab].
  - left. apply Z.ltb_lt in Hab. lia.
  - right. apply andb_true_iff in Hab. destruct Hab as [Hab1 Hab2].
    apply Z.eqb_eq in Hab1. apply negb_true_iff in Hab2. split; [lia | exact Hab2].
Qed.

Lemma prioritize_orders_sorted_witness :
  map code (snd (run_prioritize test_scheduler [order_five_hours; order_due_tomorrow] 0))
    = ["A"; "A"] /\
  map (fun o => value (calculated_priority o))
    (snd (run_prioritize test_scheduler [order_five_hours; order_due_tomorrow] 0)) = [5; 4] /\
  Permutation (snd (run_prioritize test_scheduler [order_five_hours; order_due_tomorrow] 0))
              (fst (run_prioritize test_scheduler [order_five_hours; order_due_tomorrow] 0)).
Proof.
  split; [vm_compute; reflexivity|]. split; [vm_compute; reflexivity|].
  apply (prioritize_orders_sorted test_scheduler [order_five_hours; order_due_tomorrow] 0).
  vm_compute. reflexivity.
Defined.

(* ------------------------------------------------------------------ *)
(** ** Further properties of check_delays *)

Lemma dict_get_set_gen {K V} (eqk : K -> K -> bool)
  (Hr : forall a b, reflect (a = b) (eqk a b)) (d : list (K * V)) (k k' : K) (v : V) :
  dict_get eqk (dict_set eqk d k v) k' = if eqk k k' then Some v else dict_get eqk d k'.
Proof.
  induction d as [|[k0 v0] d IH]; cbn; [reflexivity|].
  destruct (Hr k0 k) as [->|Hne]; cbn.
  - destruct (Hr k k'); reflexivity.
  - rewrite IH. destruct (Hr k0 k') as [->|Hne']; destruct (Hr k k') as [->|Hne'']; congruence.
Qed.

Lemma dict_set_nodup {K V} (eqk : K -> K -> bool)
  (Hr : forall a b, reflect (a = b) (eqk a b)) (d : list (K * V)) (k : K) (v : V) :
  NoDup (map fst d) -> NoDup (map fst (dict_set eqk d k v)).
Proof.
  induction d as [|[k0 v0] d IH]; cbn; intro Hnd; [repeat constructor; auto|].
  inversion Hnd as [|? ? Hn0 Hnd']; subst.
  destruct (Hr k0 k) as [->|Hne]; cbn; constructor; auto.
  assert (Hk : forall k1, In k1 (map fst (dict_set eqk d k v)) -> k1 = k \/ In k1 (map fst d)).
  { clear IH Hn0 Hnd Hnd'. induction d as [|[k2 v2] d IH2]; cbn; [intuition|].
    destruct (eqk k2 k); cbn; intros k1 [H|H]; auto. destruct (IH2 k1 H); auto. }
  intro Hin. destruct (Hk k0 Hin); [congruence | contradiction].
Qed.

Lemma in_dict_set {K V} (eqk : K -> K -> bool)
  (Hr : forall a b, reflect (a = b) (eqk a b)) (d : list (K * V)) (k k0 : K) (v v0 : V) :
  In (k0, v0) (dict_set eqk d k v) -> In (k0, v0) d \/ (k0, v0) = (k, v).
Proof.
  induction d as [|[k1 v1] d IH]; cbn; [intuition|].
  destruct (Hr k1 k) as [->|Hne]; cbn; intros [H|H]; auto.
  destruct (IH H); auto.
Qed.

Lemma fold_left_inv {A B} (f : A -> B -> A) (P : A -> Prop) (l : list B) (a : A) :
  P a -> (forall x acc, In x l -> P acc -> P (f acc x)) -> P (fold_left f l a).
Proof.
  revert a; induction l as [|x l IH]; intros a Ha Hf; cbn; [exact Ha|].
  apply IH; [apply Hf; [left; reflexivity | exact Ha]|].
  intros y acc Hy. apply Hf. right. exact Hy.
Qed.

(** The [max] of the allocation dates, as [check_delays] computes it. *)
Lemma fold_max_spec (ds : list Z) (d0 : Z) :
  let m := fold_left (fun m d => if m <? d then d else m) ds d0 in
  (m = d0 \/ In m ds) /\ d0 <= m /\ Forall (fun d => d <= m) ds.
Proof.
  revert d0; induction ds as [|d ds IH]; intro d0; cbn.
  - split; [left; reflexivity | split; [lia | constructor]].
  - destruct (Z.ltb_spec d0 d).
    + destruct (IH d) as [[H1|H1] [H2 H3]]; split.
      * right; left; symmetry; exact H1.
      * split; [lia | constructor; [lia | exact H3]].
      * right; right; exact H1.
      * split; [lia | constructor; [lia | exact H3]].
    + destruct (IH d0) as [[H1|H1] [H2 H3]]; split.
      * left; exact H1.
      * split; [lia | constructor; [rewrite H1; lia | exact H3]].
      * right; right; exact H1.
      * split; [lia | constructor; [lia | exact H3]].
Qed.

Lemma completion_spec (a : Allocation) (rest : list Allocation) :
  let m := fold_left (fun m d => if m <? d then d else m)
             (map allocation_date rest) (allocation_date a) in
  exists a', In a' (a :: rest) /\ allocation_date a' = m /\
    Forall (fun a'' => allocation_date a'' <= m) (a :: rest).
Proof.
  cbv zeta. destruct (fold_max_spec (map allocation_date rest) (allocation_date a))
    as [Hm [Hle Hf]].
  set (m := fold_left _ _ _) in *.
  assert (Hall : Forall (fun a'' => allocation_date a'' <= m) (a :: rest)).
  { constructor; [exact Hle|]. apply Forall_forall. intros x Hx.
    apply (proj1 (Forall_forall _ _) Hf). apply in_map. exact Hx. }
  destruct Hm as [Hm|Hm].
  - exists a. split; [left; reflexivity | split; [symmetry; exact Hm | exact Hall]].
  - apply in_map_iff in Hm. destruct Hm as [a' [Ha' Hin]].
    exists a'. split; [right; exact Hin | split; [exact Ha' | exact Hall]].
Qed.


(** The delay map of [check_delays] has each code once, and each of its
    entries [(c, d)] comes from an order of code [c] and the last
    allocation [a] of code [c] in the schedule: [d] is the number of days
    from the order's due date to [a]'s date, and it is positive. *)
Theorem check_delays_entries (s : Scheduler) (orders : list Order) :
  NoDup (map fst (check_delays s orders)) /\
  forall c d, In (c, d) (check_delays s orders) ->
    0 < d /\
    exists o a, In o orders /\ code o = c /\
      In a (get_order_schedule (schedule s) c) /\
      Forall (fun a' => allocation_date a' <= allocation_date a)
        (get_order_schedule (schedule s) c) /\
      d = allocation_date a - dt_day (due_date o).
Proof.
  unfold check_delays. apply fold_left_inv.
  - split; [constructor | intros c d []].
  - intros o acc Ho [Hnd Hacc].
    destruct (get_order_schedule (schedule s) (code o)) as [|a rest] eqn:Hg;
      [split; assumption|].
    destruct (completion_spec a rest) as [a' [Hin' [Hd' Hall]]].
    set (m := fold_left _ _ _) in *.
    destruct (Z.ltb_spec (dt_day (due_date o)) m); [|split; assumption].
    split; [apply dict_set_nodup; [exact String.eqb_spec | exact Hnd]|].
    intros c d Hcd. apply in_dict_set in Hcd; [|exact String.eqb_spec].
    destruct Hcd as [Hcd|Hcd]; [exact (Hacc c d Hcd)|].
    injection Hcd as -> ->. split; [lia|].
    exists o, a'. rewrite Hg.
    split; [exact Ho|]. split; [reflexivity|]. split; [exact Hin'|].
    split; [rewrite Hd'; exact Hall | lia].
Qed.

(** When the orders have pairwise distinct codes, [check_delays] maps the
    code of an order to [d] exactly when the order's last allocation falls
    [d > 0] days after its due date; an order without allocation is absent. *)
Theorem check_delays_unique_codes (s : Scheduler) (orders : list Order) (o : Order) (d : Z)
  (Hnd : NoDup (map code orders)) (Hin : In o orders) :
  dict_get String.eqb (check_delays s orders) (code o) = Some d <->
  exists a, In a (get_order_schedule (schedule s) (code o)) /\
    Forall (fun a' => allocation_date a' <= allocation_date a)
      (get_order_schedule (schedule s) (code o)) /\
    dt_day (due_date o) < allocation_date a /\
    d = allocation_date a - dt_day (due_date o).
Proof.
  unfold check_delays.
  match goal with |- context [fold_left ?F _ _] => set (F0 := F) end.
  set (c := code o).
  assert (Hother : forall os acc, Forall (fun o' => code o' <> c) os ->
            dict_get String.eqb (fold_left F0 os acc) c = dict_get String.eqb acc c).
  { induction os as [|o' os IH]; intros acc Hf; cbn; [reflexivity|].
    inversion Hf as [|? ? Hne Hf']; subst. rewrite IH by exact Hf'.
    unfold F0. destruct (get_order_schedule _ _); [reflexivity|].
    destruct (_ <? _); [|reflexivity].
    rewrite dict_get_set_gen by exact String.eqb_spec.
    destruct (String.eqb_spec (code o') c); [contradiction | reflexivity]. }
  assert (Hmain : forall os acc, NoDup (map code os) -> In o os ->
            dict_get String.eqb acc c = None ->
            dict_get String.eqb (fold_left F0 os acc) c =
            dict_get String.eqb (F0 [] o) c).
  { induction os as [|o' os IH]; intros acc Hn Hi Hacc; [destruct Hi|].
    cbn in Hn. inversion Hn as [|? ? Hn0 Hn']; subst. cbn.
    destruct Hi as [Heq|Hi]; [subst o'|].
    - rewrite Hother.
      2:{ apply Forall_forall. intros x Hx Hc. apply Hn0. unfold c in Hc. rewrite <- Hc.
          apply in_map. exact Hx. }
      unfold F0. destruct (get_order_schedule _ _); [exact Hacc|].
      destruct (_ <? _); [|exact Hacc].
      rewrite !dict_get_set_gen by exact String.eqb_spec. unfold c. rewrite String.eqb_refl. reflexivity.
    - apply IH; [assumption | assumption |].
      assert (Hne : code o' <> c).
      { intro Hc. apply Hn0. rewrite Hc. apply in_map. exact Hi. }
      assert (Hf1 : Forall (fun o1 => code o1 <> c) [o']) by (constructor; [exact Hne | constructor]).
      pose proof (Hother [o'] acc Hf1) as Ho'.
      cbn in Ho'. rewrite Ho'. exact Hacc. }
  rewrite (Hmain orders [] Hnd Hin eq_refl). unfold F0, c.
  destruct (get_order_schedule (schedule s) (code o)) as [|a rest] eqn:Hg.
  - cbn. split; [discriminate | intros [a [[] _]]].
  - destruct (completion_spec a rest) as [a' [Hin' [Hd' Hall]]].
    set (m := fold_left _ _ _) in *.
    destruct (Z.ltb_spec (dt_day (due_date o)) m) as [Hlt|Hge].
    + cbn. rewrite String.eqb_refl. split.
      * intro Hs. injection Hs as <-. exists a'. rewrite Hd'.
        split; [exact Hin'|]. split; [exact Hall|]. split; [exact Hlt | reflexivity].
      * intros [b [Hb [Hbf [Hbl ->]]]]. f_equal.
        pose proof (proj1 (Forall_forall _ _) Hall b Hb).
        pose proof (proj1 (Forall_forall _ _) Hbf a' Hin'). cbv beta in *. lia.
    + cbn. split; [discriminate|].
      intros [b [Hb [Hbf [Hbl _]]]].
      pose proof (proj1 (Forall_forall _ _) Hall b Hb). cbv beta in *. lia.
Qed.

Lemma check_delays_unique_codes_witness :
  dict_get String.eqb
    (check_delays (fst (run_schedule test_scheduler [big_order_due_tomorrow] 0 3))
                  [big_order_due_tomorrow]) "A" = Some 1.
Proof.
  apply (check_delays_unique_codes (fst (run_schedule test_scheduler [big_order_due_tomorrow] 0 3))
           [big_order_due_tomorrow] big_order_due_tomorrow 1).
  - repeat constructor. intros [].
  - left. reflexivity.
  - exists (mkAllocation "A" 1 2 4 false).
    split; [vm_compute; right; right; left; reflexivity|].
    split; [vm_compute; repeat constructor; discriminate|].
    split; [cbn; lia | reflexivity].
Defined.

(* ------------------------------------------------------------------ *)
(** ** Further properties of get_worker_load *)

Lemma wd_snoc (p : list Allocation) (a : Allocation) (k d : Z) :
  get_day_schedule (get_worker_schedule (p ++ [a]) k) d =
  get_day_schedule (get_worker_schedule p k) d ++
    (if (worker_id a =? k) && (allocation_date a =? d) then [a] else []).
Proof.
  unfold get_day_schedule, get_worker_schedule. rewrite !filter_app. f_equal.
  cbn. destruct (worker_id a =? k); cbn; [|reflexivity].
  destruct (allocation_date a =? d); reflexivity.
Qed.

Lemma worker_load_init (ws : list Worker) (acc : list (Z * list (Z * Q))) (k : Z) :
  dict_get Z.eqb (fold_left (fun d w => dict_set Z.eqb d (id w) []) ws acc) k =
  if existsb (fun i => i =? k) (map id ws) then Some [] else dict_get Z.eqb acc k.
Proof.
  revert acc; induction ws as [|w ws IH]; intro acc; cbn; [reflexivity|].
  rewrite IH, dict_get_set_gen by exact Z.eqb_spec.
  destruct (id w =? k); cbn; destruct (existsb _ _); reflexivity.
Qed.

Lemma existsb_id (ws : list Worker) (k : Z) :
  existsb (fun i => i =? k) (map id ws) = true <-> In k (map id ws).
Proof.
  rewrite existsb_exists. split.
  - intros [x [Hx Hk]]. apply Z.eqb_eq in Hk. subst. exact Hx.
  - intro Hk. exists k. split; [exact Hk | apply Z.eqb_refl].
Qed.

Lemma fold_left_err {A B} (f : Result A -> B -> Result A) (l : list B) (e : PyExc) :
  (forall x, f (Err e) x = Err e) -> fold_left f l (Err e) = Err e.
Proof. intro Hf. induction l as [|x l IH]; cbn; [reflexivity|]. rewrite Hf. exact IH. Qed.

Lemma load_inv_snoc_other (p : list Allocation) (a : Allocation) (k d : Z) :
  (worker_id a =? k) && (allocation_date a =? d) = false ->
  get_day_schedule (get_worker_schedule (p ++ [a]) k) d =
  get_day_schedule (get_worker_schedule p k) d /\
  sum_wd k d (p ++ [a]) = sum_wd k d p.
Proof.
  intro Hf. unfold sum_wd. rewrite wd_snoc, Hf, app_nil_r. split; reflexivity.
Qed.

Lemma get_worker_load_gen (s : Scheduler) :
  (Forall (fun a => In (worker_id a) (map id (workers s))) (schedule s) ->
   exists wl, get_worker_load s = Ok wl /\ load_inv (map id (workers s)) (schedule s) wl) /\
  (~ Forall (fun a => In (worker_id a) (map id (workers s))) (schedule s) ->
   get_worker_load s = Err KeyError).
Proof.
  unfold get_worker_load.
  match goal with |- context [fold_left ?G (schedule s) _] => set (F := G) end.
  set (ids := map id (workers s)).
  set (init := fold_left _ (workers s) []).
  assert (Hinit : load_inv ids [] init).
  { split.
    - intros k Hk. unfold init. rewrite worker_load_init.
      destruct (existsb _ _) eqn:He; [|reflexivity].
      exfalso. apply Hk. apply existsb_id. exact He.
    - intros k Hk. exists []. split; [|intro d; reflexivity].
      unfold init. rewrite worker_load_init.
      apply existsb_id in Hk. unfold ids in Hk. rewrite Hk. reflexivity. }
  assert (Hstep : forall p wl a, load_inv ids p wl -> In (worker_id a) ids ->
            exists wl', F (Ok wl) a = Ok wl' /\ load_inv ids (p ++ [a]) wl').
  { intros p wl a [Hnone Hsome] Hin.
    destruct (Hsome (worker_id a) Hin) as [m [Hm Hmd]].
    unfold F. cbn [rbind]. rewrite Hm.
    eexists. split; [reflexivity|]. split.
    - intros k Hk. rewrite dict_get_set_gen by exact Z.eqb_spec.
      destruct (Z.eqb_spec (worker_id a) k) as [Heq|]; [subst k; contradiction | exact (Hnone k Hk)].
    - intros k Hk. rewrite dict_get_set_gen by exact Z.eqb_spec.
      destruct (Z.eqb_spec (worker_id a) k) as [<-|Hne].
      + eexists. split; [reflexivity|]. intro d.
        rewrite dict_get_set_gen by exact Z.eqb_spec.
        destruct (Z.eqb_spec (allocation_date a) d) as [<-|Hd].
        * unfold sum_wd. rewrite wd_snoc, !Z.eqb_refl. cbn [andb].
          split; [destruct (get_day_schedule _ _); discriminate|].
          rewrite sum_hours_app. unfold sum_hours at 2. cbn [fold_right].
          pose proof (Hmd (allocation_date a)) as Hmd0.
          destruct (dict_get Z.eqb m (allocation_date a)) as [h0|] eqn:Hg.
          -- rewrite Hg. destruct Hmd0 as [_ Hh0]. unfold sum_wd in Hh0. lra.
          -- rewrite dict_get_set_gen, Z.eqb_refl by exact Z.eqb_spec.
             rewrite Hmd0. unfold sum_hours at 1. cbn [fold_right]. lra.
        * destruct (load_inv_snoc_other p a (worker_id a) d) as [Hw Hs].
          { rewrite Z.eqb_refl. cbn [andb]. apply Z.eqb_neq. exact Hd. }
          rewrite Hw, Hs.
          assert (Hm1 : dict_get Z.eqb
                          (match dict_get Z.eqb m (allocation_date a) with
                           | Some _ => m
                           | None => dict_set Z.eqb m (allocation_date a) 0%Q
                           end) d = dict_get Z.eqb m d).
          { destruct (dict_get Z.eqb m (allocation_date a)); [reflexivity|].
            rewrite dict_get_set_gen by exact Z.eqb_spec.
            destruct (Z.eqb_spec (allocation_date a) d); [contradiction | reflexivity]. }
          rewrite Hm1. exact (Hmd d).
      + destruct (Hsome k Hk) as [mk [Hmk Hmkd]].
        exists mk. split; [exact Hmk|]. intro d.
        destruct (load_inv_snoc_other p a k d) as [Hw Hs].
        { apply andb_false_iff. left. apply Z.eqb_neq. exact Hne. }
        rewrite Hw, Hs. exact (Hmkd d). }
  assert (Hbad : forall p wl a, load_inv ids p wl -> ~ In (worker_id a) ids ->
            F (Ok wl) a = Err KeyError).
  { intros p wl a [Hnone _] Hn. unfold F. cbn [rbind]. rewrite (Hnone _ Hn). reflexivity. }
  assert (Herr : forall x, F (Err KeyError) x = Err KeyError) by reflexivity.
  split.
  - intro Hall.
    assert (Hgen : forall l p wl, load_inv ids p wl ->
              Forall (fun a => In (worker_id a) ids) l ->
              exists wl', fold_left F l (Ok wl) = Ok wl' /\ load_inv ids (p ++ l) wl').
    { induction l as [|a l IH]; intros p wl Hi Hf; cbn [fold_left app].
      - exists wl. rewrite app_nil_r. split; [reflexivity | exact Hi].
      - inversion Hf as [|? ? Ha Hf']; subst.
        destruct (Hstep p wl a Hi Ha) as [wl1 [Hw1 Hi1]]. rewrite Hw1.
        destruct (IH (p ++ [a]) wl1 Hi1 Hf') as [wl2 [Hw2 Hi2]].
        exists wl2. rewrite <- app_assoc in Hi2. split; [exact Hw2 | exact Hi2]. }
    exact (Hgen (schedule s) [] init Hinit Hall).
  - intro Hn.
    assert (Hgen : forall l p wl, load_inv ids p wl ->
              ~ Forall (fun a => In (worker_id a) ids) l ->
              fold_left F l (Ok wl) = Err KeyError).
    { induction l as [|a l IH]; intros p wl Hi Hf; cbn [fold_left app].
      - exfalso. apply Hf. constructor.
      - destruct (in_dec Z.eq_dec (worker_id a) ids) as [Ha|Ha].
        + destruct (Hstep p wl a Hi Ha) as [wl1 [Hw1 Hi1]]. rewrite Hw1.
          apply (IH (p ++ [a]) wl1 Hi1). intro Hl. apply Hf. constructor; assumption.
        + rewrite (Hbad p wl a Hi Ha). apply fold_left_err. exact Herr. }
    exact (Hgen (schedule s) [] init Hinit Hn).
Qed.

(** [get_worker_load] raises [KeyError] exactly when some allocation of the
    schedule names a worker id that is not one of the scheduler's workers.
    Otherwise it maps every worker id to a map holding, for each date on
    which the schedule books that worker, the total hours booked, and no
    other date. *)
Theorem get_worker_load_spec (s : Scheduler) :
  (Forall (fun a => In (worker_id a) (map id (workers s))) (schedule s) ->
   exists wl, get_worker_load s = Ok wl /\ load_inv (map id (workers s)) (schedule s) wl) /\
  (~ Forall (fun a => In (worker_id a) (map id (workers s))) (schedule s) ->
   get_worker_load s = Err KeyError).
Proof. exact (get_worker_load_gen s). Qed.

(** After [create_schedule] on workers with distinct ids and non-negative
    nominal hours, [get_worker_load] succeeds, and for every worker of the
    new scheduler and every date the load it reports plus the availability
    left for that date is the worker's [hours_per_day] (a date it does not
    report has its full nominal hours left), with the availability never
    negative; so no reported load exceeds [hours_per_day]. *)
Theorem get_worker_load_after_schedule (s : Scheduler) (orders : list Order)
  (start_date days_ahead : Z) (s' : Scheduler) (orders' : list Order)
  (H : create_schedule s orders start_date days_ahead = Ok (s', orders'))
  (Hids : NoDup (map id (workers s)))
  (Hhpd : Forall (fun w => (0 <= hours_per_day w)%Q) (workers s)) :
  exists wl, get_worker_load s' = Ok wl /\
    forall w d, In w (workers s') ->
      exists m, dict_get Z.eqb wl (id w) = Some m /\
        (0 <= get_available_hours w d)%Q /\
        match dict_get Z.eqb m d with
        | Some h => (h + get_available_hours w d == hours_per_day w)%Q /\
                    (h <= hours_per_day w)%Q
        | None => (get_available_hours w d == hours_per_day w)%Q
        end.
Proof.
  destruct (create_schedule_inv _ _ _ _ _ _ H) as [p [ws [_ [Hso Hws]]]].
  set (ws0 := map (fun w => set_availability w []) (workers s)) in Hso.
  assert (Hshape : map shp ws = map shp ws0)
    by exact (schedule_orders_shape _ _ _ _ _ Hso).
  assert (Hid0 : map id ws0 = map id (workers s))
    by (unfold ws0; rewrite map_id_shp, map_shp_reset, <- map_id_shp; reflexivity).
  assert (Hidws : map id ws = map id (workers s))
    by (rewrite map_id_shp, Hshape, <- map_id_shp; exact Hid0).
  assert (Hnd0 : NoDup (map id ws0)) by (rewrite Hid0; exact Hids).
  pose proof (schedule_orders_inv _ _ _ _ _ _ (capacity_inv_reset _ Hhpd) Hnd0 Hso) as Hcap.
  cbn [app] in Hcap.
  assert (Hall : Forall (fun a => In (worker_id a) (map id (workers s'))) (schedule s')).
  { pose proof (schedule_orders_ok _ _ _ _ _ _ eq_refl Hso) as Hok.
    eapply Forall_impl; [|exact Hok].
    intros a [_ [_ [w0 [Hin [Hid _]]]]].
    rewrite Hws, Hidws, <- Hid0, <- Hid. apply in_map. exact Hin. }
  destruct (proj1 (get_worker_load_gen s') Hall) as [wl [Hwl [_ Hsome]]].
  exists wl. split; [exact Hwl|].
  intros w d Hin.
  destruct (Hsome (id w) (in_map id _ _ Hin)) as [m [Hm Hmd]].
  exists m. split; [exact Hm|].
  rewrite Hws in Hin. apply In_nth_error in Hin. destruct Hin as [i Hi].
  destruct (Hcap i w Hi d) as [H0 H1].
  split; [exact H0|].
  pose proof (Hmd d) as Hd.
  destruct (dict_get Z.eqb m d) as [h|].
  - destruct Hd as [_ Hh]. split; lra.
  - unfold sum_wd in H1. rewrite Hd in H1. unfold sum_hours in H1. cbn [fold_right] in H1. lra.
Qed.

(** Witness: the repository's test run. *)
Lemma get_worker_load_after_schedule_witness :
  exists wl, get_worker_load (fst (run_schedule test_scheduler [order_five_hours] 0 3)) = Ok wl /\
    forall w d, In w (workers (fst (run_schedule test_scheduler [order_five_hours] 0 3))) ->
      exists m, dict_get Z.eqb wl (id w) = Some m /\
        (0 <= get_available_hours w d)%Q /\
        match dict_get Z.eqb m d with
        | Some h => (h + get_available_hours w d == hours_per_day w)%Q /\
                    (h <= hours_per_day w)%Q
        | None => (get_available_hours w d == hours_per_day w)%Q
        end.
Proof.
  apply (get_worker_load_after_schedule test_scheduler [order_five_hours] 0 3
           (fst (run_schedule test_scheduler [order_five_hours] 0 3))
           (snd (run_schedule test_scheduler [order_five_hours] 0 3))).
  - vm_compute. reflexivity.
  - repeat constructor; simpl; tauto.
  - repeat constructor. apply Qle_bool_iff. reflexivity.
Defined.

Lemma dict_set_keys {K V} (eqk : K -> K -> bool)
  (Hr : forall a b, reflect (a = b) (eqk a b)) (d : list (K * V)) (k k1 : K) (v : V) :
  In k1 (map fst (dict_set eqk d k v)) <-> k1 = k \/ In k1 (map fst d).
Proof.
  induction d as [|[k0 v0] d IH]; cbn; [intuition congruence|].
  destruct (Hr k0 k) as [->|Hne]; cbn; [intuition congruence|].
  rewrite IH. intuition congruence.
Qed.

Lemma fold_set_keys {A K V} (eqk : K -> K -> bool)
  (Hr : forall a b, reflect (a = b) (eqk a b)) (key : A -> K) (g : A -> V)
  (l : list A) (acc : list (K * V)) :
  (forall k1, In k1 (map fst (fold_left (fun p x => dict_set eqk p (key x) (g x)) l acc)) <->
              In k1 (map fst acc) \/ In k1 (map key l)) /\
  (NoDup (map fst acc) ->
   NoDup (map fst (fold_left (fun p x => dict_set eqk p (key x) (g x)) l acc))).
Proof.
  revert acc; induction l as [|x l IH]; intro acc; cbn [fold_left map].
  - split; [intro k1; cbn; tauto | tauto].
  - destruct (IH (dict_set eqk acc (key x) (g x))) as [IH1 IH2]. split.
    + intro k1. rewrite IH1, dict_set_keys by exact Hr. cbn [In]. intuition congruence.
    + intro Hnd. apply IH2. apply dict_set_nodup; assumption.
Qed.

Lemma fold_set_other {A K V} (eqk : K -> K -> bool)
  (Hr : forall a b, reflect (a = b) (eqk a b)) (key : A -> K) (g : A -> V)
  (l : list A) (acc : list (K * V)) (k : K) :
  ~ In k (map key l) ->
  dict_get eqk (fold_left (fun p x => dict_set eqk p (key x) (g x)) l acc) k = dict_get eqk acc k.
Proof.
  revert acc; induction l as [|x l IH]; intros acc Hn; cbn [fold_left]; [reflexivity|].
  cbn [map In] in Hn. rewrite IH by tauto.
  rewrite dict_get_set_gen by exact Hr.
  destruct (Hr (key x) k); [tauto | reflexivity].
Qed.

Lemma py_min_Qmin (a b c : Q) : (a == b)%Q -> (py_min a c == Qmin b c)%Q.
Proof.
  intro E. unfold py_min. destruct (Qle_bool a c) eqn:Hl.
  - apply Qle_bool_iff in Hl. rewrite Q.min_l; [exact E | rewrite <- E; exact Hl].
  - apply Qle_bool_false in Hl. rewrite Q.min_r; [reflexivity | rewrite <- E; lra].
Qed.

(** [get_order_progress] has one entry per distinct order code of its input
    and no other key. The entry of a code is computed from the last order
    with that code: 100 when [ordered_qty * cycle_time <= 0], and otherwise
    [min (consumed_qty / ordered_qty * 100, 100)], in which the cycle time
    cancels out; every entry is at most 100. *)
Theorem get_order_progress_spec (orders : list Order) :
  NoDup (map fst (get_order_progress orders)) /\
  (forall c, In c (map fst (get_order_progress orders)) <-> In c (map code orders)) /\
  (forall pre o post, orders = pre ++ o :: post -> ~ In (code o) (map code post) ->
     exists v, dict_get String.eqb (get_order_progress orders) (code o) = Some v /\
       (v <= 100)%Q /\
       (v == if Qle_bool (inject_Z (ordered_qty o) * cycle_time o) 0 then 100%Q
             else Qmin (inject_Z (consumed_qty o) / inject_Z (ordered_qty o) * 100) 100)%Q).
Proof.
  set (g := fun o : Order =>
         if Qle_bool (inject_Z (ordered_qty o) * cycle_time o) 0 then 100%Q
         else py_min (inject_Z (consumed_qty o) * cycle_time o /
                      (inject_Z (ordered_qty o) * cycle_time o) * 100) 100).
  assert (E : get_order_progress orders =
              fold_left (fun p x => dict_set String.eqb p (code x) (g x)) orders []).
  { unfold get_order_progress. generalize (@nil (string * Q)).
    induction orders as [|x l IH]; intro acc; cbn [fold_left]; [reflexivity|].
    rewrite IH. unfold g. destruct (Qle_bool _ 0); reflexivity. }
  rewrite E.
  destruct (fold_set_keys String.eqb String.eqb_spec code g orders []) as [Hk Hnd].
  split; [apply Hnd; constructor|].
  split; [intro c; rewrite Hk; cbn; tauto|].
  intros pre o post -> Hn.
  rewrite fold_left_app. cbn [fold_left].
  rewrite fold_set_other by (exact String.eqb_spec || exact Hn).
  rewrite dict_get_set_gen, String.eqb_refl by exact String.eqb_spec.
  exists (g o). split; [reflexivity|].
  unfold g. destruct (Qle_bool (inject_Z (ordered_qty o) * cycle_time o) 0) eqn:Ht.
  - split; lra.
  - split; [apply py_min_le_r|].
    apply Qle_bool_false in Ht. apply py_min_Qmin.
    assert (Hc : ~ cycle_time o == 0) by (intro Hc; rewrite Hc in Ht; lra).
    assert (Ho : ~ inject_Z (ordered_qty o) == 0) by (intro Ho; rewrite Ho in Ht; lra).
    field. auto.
Qed.

(** Witness: with two rows for code "A", the entry follows the last one. *)
Lemma get_order_progress_spec_witness :
  exists v, dict_get String.eqb (get_order_progress progress_rows) "A" = Some v /\
    (v <= 100)%Q /\ (v == 40)%Q.
Proof.
  destruct (proj2 (proj2 (get_order_progress_spec progress_rows))
              [hd (mkOrder "" "" 0 0 0 "" (day_at 0) (day_at 0) None MEDIUM) progress_rows]
              (last progress_rows (mkOrder "" "" 0 0 0 "" (day_at 0) (day_at 0) None MEDIUM))
              [] eq_refl (fun H => H)) as [v [Hv [Hle Heq]]].
  exists v. split; [exact Hv|]. split; [exact Hle|].
  rewrite Heq. vm_compute. reflexivity.
Defined.








Lemma apply_award_spec (oc : string) (award : list (Z * Q)) :
  NoDup (map fst award) -> forall w als,
  let r := apply_award w oc award als in
  snd r = als ++ map (fun dh => mkAllocation oc (id w) (fst dh) (snd dh) false) award /\
  shp (fst r) = shp w /\
  forall d, get_available_hours (fst r) d =
            match dict_get Z.eqb award d with
            | Some h => (get_available_hours w d - h)%Q
            | None => get_available_hours w d
            end.
Proof.
  induction award as [|[day h] rest IH]; intros Hnd w als; cbn [apply_award fst snd].
  - rewrite app_nil_r. split; [reflexivity|]. split; [reflexivity|]. intro d. reflexivity.
  - inversion Hnd as [|? ? Hn Hnd']; subst.
    set (w1 := set_availability w _).
    destruct (IH Hnd' w1 (als ++ [mkAllocation oc (id w1) day h false])) as [H1 [H2 H3]].
    split; [rewrite H1, <- app_assoc; reflexivity|].
    split; [rewrite H2; reflexivity|].
    intro d. rewrite H3. cbn [dict_get].
    assert (Hw1 : get_available_hours w1 d =
                  if day =? d then (get_available_hours w day - h)%Q else get_available_hours w d).
    { unfold w1, get_available_hours at 1. cbn [availability set_availability hours_per_day].
      rewrite dict_get_set_gen by exact Z.eqb_spec.
      destruct (day =? d); reflexivity. }
    destruct (Z.eqb_spec day d) as [Heq|Hne].
    + subst d. assert (Hr : dict_get Z.eqb rest day = None).
      { clear -Hn. induction rest as [|[k v] rest IHr]; cbn; [reflexivity|].
        cbn in Hn. destruct (Z.eqb_spec k day); [tauto | apply IHr; tauto]. }
      rewrite Hr, Hw1. reflexivity.
    + rewrite Hw1. reflexivity.
Qed.

(** [WorkerAgent.handle_allocation_award] on an award with an order code,
    a worker id and a map of dates to hours: an award for another worker
    leaves the agent as it is. An award for this worker, with distinct
    dates, removes the code from the active bids, appends one allocation
    per awarded date in the map's order, leaves the outbox and the worker's
    id, name, nominal hours and skills as they are, and lowers the stored
    availability of each awarded date by the awarded hours, with no check
    that they fit: the availability can become negative. *)
Theorem handle_allocation_award_outcome (e : Event) (wa : WorkerAgent)
  (oc : string) (wid : Z) (award : list (Z * Q))
  (Hoc : attr_str e "order_code" = Ok oc) (Hwid : attr_int e "worker_id" = Ok wid)
  (Haw : getattr e "allocations" = Ok (VHoursMap award)) :
  (wid <> id (agent_worker wa) -> handle_allocation_award e wa = (Ok tt, wa)) /\
  (wid = id (agent_worker wa) -> NoDup (map fst award) ->
   exists w' bids',
     handle_allocation_award e wa =
       (Ok tt, mkWorkerAgent w' (days_ahead wa)
                 (agent_allocations wa ++
                  map (fun dh => mkAllocation oc wid (fst dh) (snd dh) false) award)
                 bids' (agent_outbox wa)) /\
     ~ In oc bids' /\
     (forall c, c <> oc -> In c bids' <-> In c (agent_active_bids wa)) /\
     shp w' = shp (agent_worker wa) /\
     forall d, get_available_hours w' d =
               match dict_get Z.eqb award d with
               | Some h => (get_available_hours (agent_worker wa) d - h)%Q
               | None => get_available_hours (agent_worker wa) d
               end).
Proof.
  unfold handle_allocation_award, se_bind, se_lift, se_get, se_put, se_ret.
  rewrite Hoc, Hwid, Haw. cbn [rbind as_hours_map].
  split.
  - intro Hne. apply Z.eqb_neq in Hne. rewrite Hne. cbn [negb]. destruct wa; reflexivity.
  - intros -> Hnd. rewrite Z.eqb_refl. cbn [negb].
    destruct (apply_award_spec oc award Hnd (agent_worker wa) (agent_allocations wa))
      as [H1 [H2 H3]].
    destruct (apply_award (agent_worker wa) oc award (agent_allocations wa)) as [w' als'].
    cbn [fst snd] in H1, H2, H3. subst als'.
    exists w', (filter (fun c => negb (String.eqb c oc)) (agent_active_bids wa)).
    split; [reflexivity|].
    split; [rewrite filter_In, String.eqb_refl; intros [_ Hf]; discriminate|].
    split; [|split; [exact H2 | exact H3]].
    intros c Hc. rewrite filter_In. apply String.eqb_neq in Hc. rewrite Hc. cbn. tauto.
Qed.

(** Witness: worker 1 accepts 10 hours on a day it has 8; its availability
    for that day becomes -2. *)
Lemma handle_allocation_award_outcome_witness :
  exists w' bids',
    handle_allocation_award award_a agent_w1 =
      (Ok tt, mkWorkerAgent w' (days_ahead agent_w1)
                (agent_allocations agent_w1 ++
                 map (fun dh => mkAllocation "A" 1 (fst dh) (snd dh) false) award_hours)
                bids' (agent_outbox agent_w1)) /\
    ~ In "A" bids' /\
    (forall c, c <> "A" -> In c bids' <-> In c (agent_active_bids agent_w1)) /\
    shp w' = shp (agent_worker agent_w1) /\
    forall d, get_available_hours w' d =
              match dict_get Z.eqb award_hours d with
              | Some h => (get_available_hours (agent_worker agent_w1) d - h)%Q
              | None => get_available_hours (agent_worker agent_w1) d
              end.
Proof.
  apply (proj2 (handle_allocation_award_outcome award_a agent_w1 "A" 1 award_hours
                  eq_refl eq_refl eq_refl)); [reflexivity|].
  repeat constructor; cbn; lia.
Defined.

Lemma mark_first_spec (oc : string) (day : Z) (als : list Allocation) :
  (Forall (fun a => ~ (order_code a = oc /\ allocation_date a = day)) als /\
   mark_first oc day als = als) \/
  (exists pre a post,
     als = pre ++ a :: post /\
     Forall (fun a => ~ (order_code a = oc /\ allocation_date a = day)) pre /\
     order_code a = oc /\ allocation_date a = day /\
     mark_first oc day als =
       pre ++ mkAllocation (order_code a) (worker_id a) (allocation_date a) (hours a) true :: post).
Proof.
  induction als as [|a als IH]; cbn [mark_first].
  - left. split; [constructor | reflexivity].
  - destruct (String.eqb_spec (order_code a) oc) as [Hc|Hc];
      destruct (Z.eqb_spec (allocation_date a) day) as [Hd|Hd]; cbn [andb].
    + right. exists [], a, als. repeat split; [constructor | exact Hc | exact Hd].
    + destruct IH as [[Hf He]|[pre [b [post [E [Hf [Hb1 [Hb2 Hm]]]]]]]].
      * left. rewrite He. split; [constructor; [tauto | exact Hf] | reflexivity].
      * right. exists (a :: pre), b, post. rewrite Hm, E.
        repeat split; [constructor; [tauto | exact Hf] | exact Hb1 | exact Hb2].
    + destruct IH as [[Hf He]|[pre [b [post [E [Hf [Hb1 [Hb2 Hm]]]]]]]].
      * left. rewrite He. split; [constructor; [tauto | exact Hf] | reflexivity].
      * right. exists (a :: pre), b, post. rewrite Hm, E.
        repeat split; [constructor; [tauto | exact Hf] | exact Hb1 | exact Hb2].
    + destruct IH as [[Hf He]|[pre [b [post [E [Hf [Hb1 [Hb2 Hm]]]]]]]].
      * left. rewrite He. split; [constructor; [tauto | exact Hf] | reflexivity].
      * right. exists (a :: pre), b, post. rewrite Hm, E.
        repeat split; [constructor; [tauto | exact Hf] | exact Hb1 | exact Hb2].
Qed.

(** [WorkerAgent.report_progress] always succeeds: it sends one
    [ProgressUpdate] carrying the order code, the worker's id, the quantity
    and the date, and keeps the worker and its bids. Of its allocations it
    marks completed only the first one with that order code and date,
    keeping everything else, and changes none when no allocation has
    them. *)
Theorem report_progress_outcome (oc : string) (qty_done day : Z) (wa : WorkerAgent) :
  exists als',
    report_progress oc qty_done day wa =
      (Ok tt, mkWorkerAgent (agent_worker wa) (days_ahead wa) als' (agent_active_bids wa)
                (agent_outbox wa ++
                 [mkEvent PROGRESS_UPDATE
                    [("order_code", VStr oc); ("worker_id", VInt (id (agent_worker wa)));
                     ("qty_done", VInt qty_done); ("allocation_date", VDate day);
                     ("timestamp", VNone)]])) /\
    ((Forall (fun a => ~ (order_code a = oc /\ allocation_date a = day)) (agent_allocations wa) /\
      als' = agent_allocations wa) \/
     (exists pre a post,
        agent_allocations wa = pre ++ a :: post /\
        Forall (fun a => ~ (order_code a = oc /\ allocation_date a = day)) pre /\
        order_code a = oc /\ allocation_date a = day /\
        als' = pre ++ mkAllocation (order_code a) (worker_id a) (allocation_date a) (hours a) true
                      :: post)).
Proof.
  exists (mark_first oc day (agent_allocations wa)). split.
  - reflexivity.
  - exact (mark_first_spec oc day (agent_allocations wa)).
Qed.

Lemma order_dict_gen (os : list Order) :
  NoDup (map fst (order_dict os)) /\
  (forall c, In c (map fst (order_dict os)) <-> In c (map code os)) /\
  (forall pre o post, os = pre ++ o :: post -> ~ In (code o) (map code post) ->
     dict_get String.eqb (order_dict os) (code o) = Some o).
Proof.
  destruct (fold_set_keys String.eqb String.eqb_spec code (fun o => o) os []) as [Hk Hnd].
  split; [apply Hnd; constructor|].
  split; [intro c; unfold order_dict; rewrite Hk; cbn; tauto|].
  intros pre o post -> Hn. unfold order_dict.
  rewrite fold_left_app. cbn [fold_left].
  rewrite (fold_set_other String.eqb String.eqb_spec code (fun o => o)) by exact Hn.
  rewrite dict_get_set_gen, String.eqb_refl by exact String.eqb_spec. reflexivity.
Qed.

(** [{order.code: order for order in current_orders}] has one key per
    distinct code of the rows and no other, and a code is mapped to the
    last row that has it. *)
Theorem order_dict_last (os : list Order) :
  NoDup (map fst (order_dict os)) /\
  (forall c, In c (map fst (order_dict os)) <-> In c (map code os)) /\
  (forall pre o post, os = pre ++ o :: post -> ~ In (code o) (map code post) ->
     dict_get String.eqb (order_dict os) (code o) = Some o).
Proof. exact (order_dict_gen os). Qed.

Lemma dict_get_keys {K V} (eqk : K -> K -> bool)
  (Hr : forall a b, reflect (a = b) (eqk a b)) (d : list (K * V)) (k : K) :
  dict_get eqk d k <> None <-> In k (map fst d).
Proof.
  induction d as [|[k0 v0] d IH]; cbn; [tauto|].
  destruct (Hr k0 k) as [->|Hne]; [split; [tauto | discriminate]|].
  rewrite IH. intuition congruence.
Qed.

Lemma created_loop_ok (cur : list (string * Order)) (codes : list string) :
  (forall c, In c codes -> dict_get String.eqb cur c <> None) ->
  forall st, exists evs,
    created_loop cur codes st =
      (Ok tt, mkExcelMonitor (known_orders st) (monitor_outbox st ++ evs)) /\
    Forall2 (fun c ev => exists o, dict_get String.eqb cur c = Some o /\
                                   OrderCreated_new (order_created_kwargs o) = Ok ev) codes evs.
Proof.
  induction codes as [|c cs IH]; intros Hc st; cbn [created_loop].
  - exists []. rewrite app_nil_r. destruct st. split; [reflexivity | constructor].
  - destruct (dict_get String.eqb cur c) as [o|] eqn:Ho;
      [|exfalso; exact (Hc c (or_introl eq_refl) Ho)].
    assert (Hev : exists ev, OrderCreated_new (order_created_kwargs o) = Ok ev)
      by (eexists; reflexivity).
    destruct Hev as [ev Hev].
    destruct (IH (fun c' Hc' => Hc c' (or_intror Hc'))
                 (mkExcelMonitor (known_orders st) (monitor_outbox st ++ [ev])))
      as [evs [He Hf]].
    eexists. split.
    + unfold m_emit, se_bind, se_lift. rewrite Hev. cbv beta iota. rewrite He.
      cbn [known_orders monitor_outbox]. rewrite <- app_assoc. reflexivity.
    + constructor; [|exact Hf]. exists o. split; [exact Ho | exact Hev].
Qed.

Lemma updated_loop_ok (cur : list (string * Order)) (codes : list string) :
  forall st,
  (forall c, In c codes -> dict_get String.eqb cur c <> None /\
                           dict_get String.eqb (known_orders st) c <> None) ->
  exists evs,
    updated_loop cur codes st =
      (Ok tt, mkExcelMonitor (known_orders st) (monitor_outbox st ++ evs)) /\
    Forall2 (fun c ev => exists o k, dict_get String.eqb cur c = Some o /\
                                     dict_get String.eqb (known_orders st) c = Some k /\
                                     OrderUpdated_new (order_updated_kwargs o) = Ok ev)
      (filter (fun c => match dict_get String.eqb cur c,
                              dict_get String.eqb (known_orders st) c with
                        | Some o, Some k => order_changed o k
                        | _, _ => false
                        end) codes) evs.
Proof.
  induction codes as [|c cs IH]; intros st Hc; cbn [updated_loop filter].
  - exists []. rewrite app_nil_r. destruct st. split; [reflexivity | constructor].
  - unfold se_bind at 1, se_get. cbv beta iota.
    destruct (Hc c (or_introl eq_refl)) as [H1 H2].
    destruct (dict_get String.eqb cur c) as [o|] eqn:Ho; [|contradiction].
    destruct (dict_get String.eqb (known_orders st) c) as [k|] eqn:Hk; [|contradiction].
    destruct (order_changed o k) eqn:Hch.
    + assert (Hev : exists ev, OrderUpdated_new (order_updated_kwargs o) = Ok ev)
        by (eexists; reflexivity).
      destruct Hev as [ev Hev].
      destruct (IH (mkExcelMonitor (known_orders st) (monitor_outbox st ++ [ev])))
        as [evs [He Hf]].
      { intros c' Hc'. exact (Hc c' (or_intror Hc')). }
      exists (ev :: evs). split.
      * unfold m_emit, se_bind, se_lift. rewrite Hev. cbv beta iota. rewrite He.
        cbn [known_orders monitor_outbox]. rewrite <- app_assoc. reflexivity.
      * constructor; [exists o, k; split; [exact Ho | split; [exact Hk | exact Hev]] | exact Hf].
    + destruct (IH st) as [evs [He Hf]].
      { intros c' Hc'. exact (Hc c' (or_intror Hc')). }
      exists evs. split; [|exact Hf].
      unfold se_bind, se_ret. exact He.
Qed.

Lemma detect_changes_gen (cur : list Order) (new_codes updated_codes : list string)
  (st : ExcelMonitor)
  (Hnew : enumerates new_codes (fun c => In c (map code cur) /\
                                         ~ In c (map fst (known_orders st))))
  (Hupd : enumerates updated_codes (fun c => In c (map code cur) /\
                                             In c (map fst (known_orders st)))) :
  exists evs_new evs_upd,
    detect_changes cur new_codes updated_codes st =
      (Ok tt, mkExcelMonitor (order_dict cur) (monitor_outbox st ++ evs_new ++ evs_upd)) /\
    Forall2 (fun c ev => exists o, dict_get String.eqb (order_dict cur) c = Some o /\
                                   OrderCreated_new (order_created_kwargs o) = Ok ev)
      new_codes evs_new /\
    Forall2 (fun c ev => exists o k, dict_get String.eqb (order_dict cur) c = Some o /\
                                     dict_get String.eqb (known_orders st) c = Some k /\
                                     OrderUpdated_new (order_updated_kwargs o) = Ok ev)
      (filter (fun c => match dict_get String.eqb (order_dict cur) c,
                              dict_get String.eqb (known_orders st) c with
                        | Some o, Some k => order_changed o k
                        | _, _ => false
                        end) updated_codes) evs_upd.
Proof.
  destruct (order_dict_gen cur) as [_ [Hkeys _]].
  assert (Hcur : forall c, In c (map code cur) -> dict_get String.eqb (order_dict cur) c <> None).
  { intros c Hc. apply (dict_get_keys String.eqb String.eqb_spec), Hkeys, Hc. }
  destruct Hnew as [_ Hnew]. destruct Hupd as [_ Hupd].
  destruct (created_loop_ok (order_dict cur) new_codes
              (fun c Hc => Hcur c (proj1 (proj1 (Hnew c) Hc))) st) as [evs1 [H1 F1]].
  destruct (updated_loop_ok (order_dict cur) updated_codes
              (mkExcelMonitor (known_orders st) (monitor_outbox st ++ evs1))) as [evs2 [H2 F2]].
  { intros c Hc. apply Hupd in Hc. destruct Hc as [Hc1 Hc2]. split; [exact (Hcur c Hc1)|].
    apply (dict_get_keys String.eqb String.eqb_spec). exact Hc2. }
  exists evs1, evs2. split; [|split; [exact F1 | exact F2]].
  unfold detect_changes, se_bind at 1. rewrite H1.
  unfold se_bind at 1. rewrite H2. unfold se_bind, se_get, se_put.
  cbn [monitor_outbox]. rewrite <- app_assoc. reflexivity.
Qed.

(** [ExcelMonitor._detect_changes] on the parsed rows, with the two sets of
    codes iterated in the orders [new_codes] (codes of the rows not known
    yet) and [updated_codes] (codes of the rows already known): it appends
    one [OrderCreated] per new code, built from the row recorded for that
    code, then one [OrderUpdated] per known code, in order, whose row
    differs from the known order in ordered or consumed quantity, due date
    or manual priority, and nothing for the others; then the known orders
    become the rows keyed by code. *)
Theorem detect_changes_outcome (cur : list Order) (new_codes updated_codes : list string)
  (st : ExcelMonitor)
  (Hnew : enumerates new_codes (fun c => In c (map code cur) /\
                                         ~ In c (map fst (known_orders st))))
  (Hupd : enumerates updated_codes (fun c => In c (map code cur) /\
                                             In c (map fst (known_orders st)))) :
  exists evs_new evs_upd,
    detect_changes cur new_codes updated_codes st =
      (Ok tt, mkExcelMonitor (order_dict cur) (monitor_outbox st ++ evs_new ++ evs_upd)) /\
    Forall2 (fun c ev => exists o, dict_get String.eqb (order_dict cur) c = Some o /\
                                   OrderCreated_new (order_created_kwargs o) = Ok ev)
      new_codes evs_new /\
    Forall2 (fun c ev => exists o k, dict_get String.eqb (order_dict cur) c = Some o /\
                                     dict_get String.eqb (known_orders st) c = Some k /\
                                     OrderUpdated_new (order_updated_kwargs o) = Ok ev)
      (filter (fun c => match dict_get String.eqb (order_dict cur) c,
                              dict_get String.eqb (known_orders st) c with
                        | Some o, Some k => order_changed o k
                        | _, _ => false
                        end) updated_codes) evs_upd.
Proof. exact (detect_changes_gen cur new_codes updated_codes st Hnew Hupd). Qed.

Lemma order_changed_refl (o : Order) : order_changed o o = false.
Proof.
  unfold order_changed, datetime_eqb, opt_Z_eqb. rewrite !Z.eqb_refl.
  destruct (priority_manual o); [rewrite Z.eqb_refl|]; reflexivity.
Qed.

(** Witness: row "B" is new and row "A" has one more piece consumed. *)
Lemma detect_changes_outcome_witness :
  exists evs_new evs_upd,
    detect_changes excel_rows ["B"] ["A"] monitor_a =
      (Ok tt, mkExcelMonitor (order_dict excel_rows) (monitor_outbox monitor_a ++ evs_new ++ evs_upd)) /\
    Forall2 (fun c ev => exists o, dict_get String.eqb (order_dict excel_rows) c = Some o /\
                                   OrderCreated_new (order_created_kwargs o) = Ok ev)
      ["B"] evs_new /\
    Forall2 (fun c ev => exists o k, dict_get String.eqb (order_dict excel_rows) c = Some o /\
                                     dict_get String.eqb (known_orders monitor_a) c = Some k /\
                                     OrderUpdated_new (order_updated_kwargs o) = Ok ev)
      (filter (fun c => match dict_get String.eqb (order_dict excel_rows) c,
                              dict_get String.eqb (known_orders monitor_a) c with
                        | Some o, Some k => order_changed o k
                        | _, _ => false
                        end) ["A"]) evs_upd.
Proof.
  apply detect_changes_outcome.
  - split; [repeat constructor; intros []|].
    intro c. cbn. intuition congruence.
  - split; [repeat constructor; intros []|].
    intro c. cbn. intuition congruence.
Defined.

(** Polling the same rows again changes nothing: once the known orders are
    the rows keyed by code, [_detect_changes] on those rows (the set of new
    codes is then empty, and every code is a known one) sends no event and
    leaves the monitor as it is. *)
Theorem detect_changes_repoll (cur : list Order) (new_codes updated_codes : list string)
  (st : ExcelMonitor) (Hknown : known_orders st = order_dict cur)
  (Hnew : enumerates new_codes (fun c => In c (map code cur) /\
                                         ~ In c (map fst (known_orders st))))
  (Hupd : enumerates updated_codes (fun c => In c (map code cur) /\
                                             In c (map fst (known_orders st)))) :
  detect_changes cur new_codes updated_codes st = (Ok tt, st).
Proof.
  destruct (detect_changes_gen cur new_codes updated_codes st Hnew Hupd)
    as [evs1 [evs2 [He [F1 F2]]]].
  rewrite He.
  destruct (order_dict_gen cur) as [_ [Hkeys _]].
  assert (Hn : new_codes = []).
  { destruct new_codes as [|c cs]; [reflexivity|].
    exfalso. destruct (proj1 (proj2 Hnew c) (or_introl eq_refl)) as [Hc1 Hc2].
    apply Hc2. rewrite Hknown. apply Hkeys. exact Hc1. }
  subst new_codes. inversion F1; subst evs1.
  rewrite Hknown in F2.
  assert (Hf : forall l, filter (fun c => match dict_get String.eqb (order_dict cur) c,
                                              dict_get String.eqb (order_dict cur) c with
                                        | Some o, Some k => order_changed o k
                                        | _, _ => false
                                        end) l = []).
  { induction l as [|c l IH]; cbn [filter]; [reflexivity|].
    destruct (dict_get String.eqb (order_dict cur) c); [rewrite order_changed_refl|]; exact IH. }
  rewrite Hf in F2. inversion F2; subst evs2.
  rewrite !app_nil_r, <- Hknown. destruct st. reflexivity.
Qed.

(** Witness: the monitor after reading [excel_rows] reads them again. *)
Lemma detect_changes_repoll_witness :
  detect_changes excel_rows [] ["A"; "B"] (mkExcelMonitor (order_dict excel_rows) []) =
    (Ok tt, mkExcelMonitor (order_dict excel_rows) []).
Proof.
  apply detect_changes_repoll; [reflexivity | |].
  - split; [constructor|]. intro c. cbn. intuition congruence.
  - split; [repeat constructor; cbn; intuition congruence|].
    intro c. cbn. intuition congruence.
Defined.

Lemma reset_replace (ws : list Worker) (i : nat) (w w' : Worker) :
  nth_error ws i = Some w -> set_availability w' [] = set_availability w [] ->
  map (fun w => set_availability w []) (replace_nth ws i w') =
  map (fun w => set_availability w []) ws.
Proof.
  revert i. induction ws as [|y ws IH]; intros i Hi Hs; [reflexivity|].
  destruct i; cbn [replace_nth map nth_error] in *.
  - injection Hi as ->. rewrite Hs. reflexivity.
  - f_equal. apply IH; assumption.
Qed.

Lemma alloc_workers_reset (o : Order) (day : Z) (idx : list nat) :
  forall ws rem ws' r' al,
  alloc_workers o day idx ws rem = (ws', r', al) ->
  map (fun w => set_availability w []) ws' = map (fun w => set_availability w []) ws.
Proof.
  induction idx as [|i idx IH]; intros ws rem ws' r' al H; cbn [alloc_workers] in H.
  - injection H as <- _ _. reflexivity.
  - destruct (nth_error ws i) as [w|] eqn:Hn; [|injection H as <- _ _; reflexivity].
    destruct (allocate_hours w day rem) as [w' m] eqn:Ha.
    cbv beta iota zeta in H.
    assert (Hs : map (fun w => set_availability w []) (replace_nth ws i w') =
                 map (fun w => set_availability w []) ws).
    { apply (reset_replace _ _ w); [exact Hn|].
      change w' with (fst (w', m)). rewrite <- Ha. reflexivity. }
    destruct (negb (Qle_bool m 0)).
    + destruct (Qle_bool (rem - m) 0).
      * injection H as <- _ _. exact Hs.
      * destruct (alloc_workers o day idx (replace_nth ws i w') (rem - m))
          as [[ws2 r2] al2] eqn:Hr.
        injection H as <- _ _. rewrite (IH _ _ _ _ _ Hr). exact Hs.
    + rewrite (IH _ _ _ _ _ H). exact Hs.
Qed.

Lemma alloc_days_reset (o : Order) (days : list Z) :
  forall ws rem ws' r' al,
  alloc_days o days ws rem = (ws', r', al) ->
  map (fun w => set_availability w []) ws' = map (fun w => set_availability w []) ws.
Proof.
  induction days as [|d days IH]; intros ws rem ws' r' al H; cbn [alloc_days] in H.
  - injection H as <- _ _. reflexivity.
  - destruct (Qle_bool rem 0); [injection H as <- _ _; reflexivity|].
    destruct (sort_workers ws d (eligible_from ws (code o) 0)) as [|j js] eqn:Hsort.
    + exact (IH _ _ _ _ _ H).
    + rewrite <- Hsort in H.
      destruct (alloc_workers o d _ ws rem) as [[ws1 r1] al1] eqn:H1.
      destruct (alloc_days o days ws1 r1) as [[ws2 r2] al2] eqn:H2.
      injection H as <- _ _.
      rewrite (IH _ _ _ _ _ H2). exact (alloc_workers_reset _ _ _ _ _ _ _ _ H1).
Qed.

Lemma schedule_orders_reset (os : list Order) (days : list Z) :
  forall ws ws' al, schedule_orders os days ws = (ws', al) ->
  map (fun w => set_availability w []) ws' = map (fun w => set_availability w []) ws.
Proof.
  induction os as [|o os IH]; intros ws ws' al H; cbn [schedule_orders] in H.
  - injection H as <- _. reflexivity.
  - destruct (schedule_order o days ws) as [ws1 al1] eqn:H1.
    destruct (schedule_orders os days ws1) as [ws2 al2] eqn:H2.
    injection H as <- _. rewrite (IH _ _ _ H2).
    unfold schedule_order in H1.
    destruct (Qle_bool (remaining_work_hours o) 0); [injection H1 as <- _; reflexivity|].
    destruct (alloc_days o days ws (remaining_work_hours o)) as [[ws3 r3] al3] eqn:H3.
    injection H1 as <- _. exact (alloc_days_reset _ _ _ _ _ _ _ H3).
Qed.

Lemma compute_all_idem (c : PriorityCalculator) (os os' : list Order) (today : Z) :
  compute_all c os today = Ok os' -> compute_all c os' today = Ok os'.
Proof.
  revert os'. induction os as [|o os IH]; intros os' H; cbn [compute_all] in H.
  - injection H as <-. reflexivity.
  - destruct (compute_priority c o today) as [p|e] eqn:Hp; cbn [rbind] in H; [|discriminate].
    destruct (compute_all c os today) as [os1|e] eqn:Hos; cbn [rbind] in H; [|discriminate].
    injection H as <-. cbn [compute_all].
    change (compute_priority c (set_calculated_priority o p) today) with
           (compute_priority c o today).
    rewrite Hp, (IH os1 eq_refl). reflexivity.
Qed.

(** Running [create_schedule] again on the scheduler and the orders it
    returned, from the same start date and horizon, returns them
    unchanged: the priorities it wrote do not enter the priority
    computation, and the workers' availability is reset before the
    allocation. *)
Theorem create_schedule_rerun (s : Scheduler) (orders : list Order)
  (start_date days_ahead : Z) (s' : Scheduler) (orders' : list Order)
  (H : create_schedule s orders start_date days_ahead = Ok (s', orders')) :
  create_schedule s' orders' start_date days_ahead = Ok (s', orders').
Proof.
  unfold create_schedule, prioritize_orders in H |- *.
  destruct (compute_all (priority_calculator s) orders start_date) as [o1|e] eqn:Hc;
    cbn [rbind] in H; [|discriminate].
  match type of H with
  | context [schedule_orders ?p ?d ?w] => destruct (schedule_orders p d w) as [ws al] eqn:Hso
  end.
  injection H as <- <-. cbn [priority_calculator workers].
  rewrite (compute_all_idem _ _ _ _ Hc). cbn [rbind].
  rewrite (schedule_orders_reset _ _ _ _ _ Hso).
  assert (Hr : forall l : list Worker,
             map (fun w => set_availability w []) (map (fun w => set_availability w []) l) =
             map (fun w => set_availability w []) l)
    by (intro l; rewrite map_map; reflexivity).
  rewrite Hr, Hso. reflexivity.
Qed.

(** Witness: the repository's test run, scheduled a second time. *)
Lemma create_schedule_rerun_witness :
  create_schedule (fst (run_schedule test_scheduler [order_five_hours] 0 3))
    (snd (run_schedule test_scheduler [order_five_hours] 0 3)) 0 3 =
  Ok (fst (run_schedule test_scheduler [order_five_hours] 0 3),
      snd (run_schedule test_scheduler [order_five_hours] 0 3)).
Proof.
  apply (create_schedule_rerun test_scheduler [order_five_hours] 0 3).
  vm_compute. reflexivity.
Defined.



(** On workers with distinct ids and non-negative nominal hours,
    [create_schedule] returns the same workers in the same order, changed
    only in their availability; for each of them and each date, the stored
    availability is not negative and adds up with the hours the returned
    schedule books for the worker on that date to its [hours_per_day]. *)
Theorem create_schedule_workers (s : Scheduler) (orders : list Order)
  (start_date days_ahead : Z) (s' : Scheduler) (orders' : list Order)
  (H : create_schedule s orders start_date days_ahead = Ok (s', orders'))
  (Hids : NoDup (map id (workers s)))
  (Hhpd : Forall (fun w => (0 <= hours_per_day w)%Q) (workers s)) :
  map (fun w => set_availability w []) (workers s') =
    map (fun w => set_availability w []) (workers s) /\
  forall w d, In w (workers s') ->
    (0 <= get_available_hours w d)%Q /\
    (sum_hours (get_day_schedule (get_worker_schedule (schedule s') (id w)) d) +
       get_available_hours w d == hours_per_day w)%Q.
Proof.
  destruct (create_schedule_inv _ _ _ _ _ _ H) as [p [ws [_ [Hso Hws]]]].
  set (ws0 := map (fun w => set_availability w []) (workers s)) in Hso.
  split.
  - rewrite Hws, (schedule_orders_reset _ _ _ _ _ Hso). unfold ws0.
    rewrite map_map. reflexivity.
  - assert (Hnd0 : NoDup (map id ws0)).
    { unfold ws0. rewrite map_id_shp, map_shp_reset, <- map_id_shp. exact Hids. }
    pose proof (schedule_orders_inv _ _ _ _ _ _ (capacity_inv_reset _ Hhpd) Hnd0 Hso) as Hcap.
    cbn [app] in Hcap.
    intros w d Hin. rewrite Hws in Hin. apply In_nth_error in Hin. destruct Hin as [i Hi].
    exact (Hcap i w Hi d).
Qed.

(** Witness: the repository's test run. *)
Lemma create_schedule_workers_witness :
  map (fun w => set_availability w []) (workers (fst (run_schedule test_scheduler [order_five_hours] 0 3))) =
    map (fun w => set_availability w []) (workers test_scheduler) /\
  forall w d, In w (workers (fst (run_schedule test_scheduler [order_five_hours] 0 3))) ->
    (0 <= get_available_hours w d)%Q /\
    (sum_hours (get_day_schedule (get_worker_schedule
       (schedule (fst (run_schedule test_scheduler [order_five_hours] 0 3))) (id w)) d) +
       get_available_hours w d == hours_per_day w)%Q.
Proof.
  apply (create_schedule_workers test_scheduler [order_five_hours] 0 3
           (fst (run_schedule test_scheduler [order_five_hours] 0 3))
           (snd (run_schedule test_scheduler [order_five_hours] 0 3))).
  - vm_compute. reflexivity.
  - repeat constructor; simpl; tauto.
  - repeat constructor. apply Qle_bool_iff. reflexivity.
Defined.
(** The round trip from the order file to the planner: the [OrderCreated]
    event the Excel monitor builds for an order is accepted by
    [handle_order_created], which stores an order with all the fields of
    the original under its document number (replacing an order stored
    under the same number) with priority [MEDIUM]. When the order has no
    remaining work it stops there; otherwise it opens a bidding round for
    the document number and raises [TypeError] from the [BidRequest]
    constructor. *)
Theorem order_created_roundtrip (o : Order) (st : PlannerAgent) :
  exists e, OrderCreated_new (order_created_kwargs o) = Ok e /\
  handle_order_created e st =
    (let st' := set_orders st (dict_set String.eqb (orders st) (doc_number o)
                                 (set_calculated_priority o MEDIUM)) in
     if Qle_bool (remaining_work_hours o) 0 then (Ok tt, st')
     else (Err TypeError,
           set_active_bids st' (dict_set String.eqb (active_bids st') (doc_number o) []))).
Proof.
  eexists. split; [reflexivity|].
  destruct o as [c ds oq cq ct dn dd due pm cp].
  unfold handle_order_created, store_order, start_allocation_process, se_bind, se_lift, se_get,
    se_put, se_ret, p_emit.
  destruct pm; cbn -[Qle_bool remaining_work_hours dict_set];
    destruct (Qle_bool _ 0); reflexivity.
Qed.

Lemma send_awards_spec (o : Order) (k : string) (allocs : list (Z * list (Z * Q)))
  (st : PlannerAgent) :
  send_awards o k allocs st =
    if forallb (fun wa => match snd wa with [] => true | _ => false end) allocs
    then (Ok tt, st) else (Err TypeError, st).
Proof.
  induction allocs as [|[wid [|dh m]] allocs IH]; cbn [send_awards forallb snd andb];
    [reflexivity | exact IH | reflexivity].
Qed.

Lemma process_bids_outbox (k : string) (st st' : PlannerAgent) (r : Result unit) :
  process_bids k st = (r, st') ->
  planner_outbox st' = planner_outbox st \/
  planner_outbox st' = planner_outbox st ++ [mkEvent SCHEDULE_UPDATED [("timestamp", VNone)]].
Proof.
  intro H. unfold process_bids in H.
  cbv [se_bind se_get se_lift se_put se_ret p_emit] in H.
  destruct (dict_get String.eqb (orders st) k) as [o|];
    [|injection H as _ <-; left; reflexivity].
  destruct (dict_get String.eqb (active_bids st) k) as [bids|];
    [|injection H as _ <-; left; reflexivity].
  destruct (map_result (fun b => attr_num b "capacity") bids) as [caps|e];
    [|injection H as _ <-; left; reflexivity].
  destruct (bid_allocations _ _ []) as [allocs|e];
    [|injection H as _ <-; left; reflexivity].
  rewrite send_awards_spec in H.
  destruct (forallb _ allocs); [|injection H as _ <-; left; reflexivity].
  change (ScheduleUpdated_new []) with (@Ok Event (mkEvent SCHEDULE_UPDATED [("timestamp", VNone)])) in H.
  injection H as _ <-. right. reflexivity.
Qed.
(** [PlannerAgent.process_bids] never sends an [AllocationAward]: the
    constructor is called with a [doc_number] keyword it does not declare,
    so as soon as some worker is awarded hours the method raises
    [TypeError], before sending anything and with the round left open.
    The only event it can send is [ScheduleUpdated]. *)
Theorem process_bids_no_award (k : string) (st : PlannerAgent) :
  (planner_outbox (snd (process_bids k st)) = planner_outbox st \/
   planner_outbox (snd (process_bids k st)) =
     planner_outbox st ++ [mkEvent SCHEDULE_UPDATED [("timestamp", VNone)]]) /\
  (forall o bids caps allocs,
     dict_get String.eqb (orders st) k = Some o ->
     dict_get String.eqb (active_bids st) k = Some bids ->
     map_result (fun b => attr_num b "capacity") bids = Ok caps ->
     bid_allocations (map snd (sort_by (fun y x => Qle_bool (fst x) (fst y)) (combine caps bids)))
       (remaining_work_hours o) [] = Ok allocs ->
     Exists (fun wa => snd wa <> []) allocs ->
     process_bids k st =
       (Err TypeError,
        set_active_bids st (dict_set String.eqb (active_bids st) k
          (map snd (sort_by (fun y x => Qle_bool (fst x) (fst y)) (combine caps bids)))))).
Proof.
  split.
  - destruct (process_bids k st) as [r st'] eqn:Hp. cbn [snd].
    exact (process_bids_outbox k st st' r Hp).
  - intros o bids caps allocs Ho Hb Hc Ha Hex.
    unfold process_bids.
    cbv [se_bind se_get se_lift se_put se_ret p_emit].
    rewrite Ho, Hb, Hc, Ha, send_awards_spec.
    assert (Hf : forallb (fun wa => match snd wa with [] => true | _ => false end) allocs = false).
    { apply not_true_iff_false. intro Ht. rewrite forallb_forall in Ht.
      apply Exists_exists in Hex. destruct Hex as [wa [Hin Hne]].
      specialize (Ht wa Hin). destruct (snd wa); [contradiction | discriminate]. }
    rewrite Hf. reflexivity.
Qed.

(** Witness: the single response of [bid_round_planner] is awarded hours. *)
Lemma process_bids_no_award_witness :
  process_bids "1" bid_round_planner =
    (Err TypeError,
     set_active_bids bid_round_planner
       (dict_set String.eqb (active_bids bid_round_planner) "1"
          (map snd (sort_by (fun y x => Qle_bool (fst x) (fst y))
             (combine [5%Q] [event_or BID_RESPONSE (BidResponse_new kw_bid_response)]))))).
Proof.
  apply (proj2 (process_bids_no_award "1" bid_round_planner) order_five_hours
           [event_or BID_RESPONSE (BidResponse_new kw_bid_response)] [5%Q] [(1, [(0, 5%Q)])]).
  - reflexivity.
  - reflexivity.
  - reflexivity.
  - vm_compute. reflexivity.
  - constructor. cbn. discriminate.
Defined.
